(** * async-code web client: session lifecycle and dual-mode data access

    A shallow embedding of the TypeScript sources

      - [lib/auth-service.ts]            (class [AuthService])
      - [lib/supabase.ts]                ([getSupabase], in its two versions)
      - [lib/supabase-service.ts]        (class [SupabaseService])
      - [components/protected-route.tsx] ([ProtectedRoute])
      - [contexts/auth-context.tsx]      ([AuthProvider])
      - [app/signin/page.tsx]            (the sign-in page)
      - [app/api/validate-token/route.ts] ([POST])

    Asynchronous functions run on a single-threaded event loop and every
    function below awaits each call before the next one, so a call is a
    state transformer over the observable world (module-level cells,
    [process.env], [localStorage], the console, the requests sent), which
    either returns a value or throws.  What the backend and the remote
    store answer is not code of this repository: it is an argument of the
    functions that talk to them.  Neither is @supabase/supabase-js:
    whether its [createClient] takes a URL and a key or throws on them is
    a parameter, the class [SupabaseJs], of every function that resolves
    the mode. *)

From stdpp Require Import base option list strings gmap sorting pretty.
From Stdlib Require Import ZArith Ascii String Sorting.Sorted.

Local Open Scope Z_scope.
Local Open Scope string_scope.

Set Warnings "-register-all".

(** ** JavaScript values *)

Module Js.

(** The JSON-shaped values that cross the wire or sit behind an [any].
    Numbers are the integral ones; [NaN] and fractions do not occur in the
    row counts, ids and offsets the code computes with. *)
Inductive JsValue : Type :=
| JUndefined
| JNull
| JBool (b : bool)
| JNum (z : Z)
| JStr (s : string)
| JArr (items : list JsValue)
| JObj (fields : list (string * JsValue)).

(** [!!v]: the falsy values are [undefined], [null], [false], [0] and the
    empty string. *)
Definition truthy (v : JsValue) : bool :=
  match v with
  | JUndefined | JNull => false
  | JBool b => b
  | JNum z => negb (Z.eqb z 0)
  | JStr s => negb (String.eqb s EmptyString)
  | JArr _ | JObj _ => true
  end.

(** Truthiness of a [string | null | undefined]. *)
Definition truthy_str (o : option string) : bool :=
  match o with
  | Some s => negb (String.eqb s EmptyString)
  | None => false
  end.

(** Truthiness of a [number | undefined]. *)
Definition truthy_num (o : option Z) : bool :=
  match o with
  | Some z => negb (Z.eqb z 0)
  | None => false
  end.

(** [a || d] on a [string | undefined]. *)
Definition or_str (o : option string) (d : string) : string :=
  if truthy_str o then default d o else d.

(** [a || d] on a [number | undefined]. *)
Definition or_num (o : option Z) (d : Z) : Z :=
  if truthy_num o then default d o else d.

(** The error object of the remote store's client ([PostgrestError]). *)
Record PostgrestError : Type := mkPostgrestError {
  code : string;
  message : string;
  details : string;
  hint : string
}.

(** What a [throw] carries. *)
Inductive Exn : Type :=
| JsError (msg : string)            (* an [Error] instance, [TypeError] and [SyntaxError] included *)
| StoreFault (error : PostgrestError) (* [throw error]: the store's error object as it came *)
| Raised (v : JsValue).             (* any other thrown value *)

(** [error instanceof Error ? error.message : fallback] *)
Definition message_or (e : Exn) (fallback : string) : string :=
  match e with
  | JsError m => m
  | StoreFault _ | Raised _ => fallback
  end.

(** The value of a key in an object's field list; of two bindings of one
    key the later wins, as in an object literal and in [JSON.parse]. *)
Fixpoint assoc (k : string) (fields : list (string * JsValue)) : option JsValue :=
  match fields with
  | [] => None
  | (k', v) :: rest =>
      match assoc k rest with
      | Some v' => Some v'
      | None => if String.eqb k k' then Some v else None
      end
  end.

(** [v.k]: a [TypeError] on [null] and [undefined], [undefined] for a
    property the value does not have. *)
Definition get_prop (v : JsValue) (k : string) : Exn + JsValue :=
  match v with
  | JUndefined | JNull =>
      inl (JsError ("Cannot read properties of null or undefined, reading " +:+ k))
  | JObj fields => inr (default JUndefined (assoc k fields))
  | JBool _ | JNum _ | JStr _ | JArr _ => inr JUndefined
  end.

(** [JSON.stringify] on these values.  A string is quoted with the
    quote, the backslash and the control characters escaped. *)
Definition hex_digit (n : nat) : ascii :=
  nth n (list_ascii_of_string "0123456789abcdef") "0"%char.

Definition escape_char (c : ascii) : string :=
  let n := nat_of_ascii c in
  if Nat.eqb n 34 then String "\"%char (String c EmptyString)
  else if Nat.eqb n 92 then String "\"%char (String c EmptyString)
  else if Nat.eqb n 8 then "\b"
  else if Nat.eqb n 9 then "\t"
  else if Nat.eqb n 10 then "\n"
  else if Nat.eqb n 12 then "\f"
  else if Nat.eqb n 13 then "\r"
  else if Nat.ltb n 32 then
    "\u00" +:+ String (hex_digit (n / 16)) (String (hex_digit (n mod 16)) EmptyString)
  else String c EmptyString.

Fixpoint escape (s : string) : string :=
  match s with
  | EmptyString => EmptyString
  | String c rest => escape_char c +:+ escape rest
  end.

Definition quote (s : string) : string :=
  String "034"%char (escape s) +:+ String "034"%char EmptyString.

(** A value inside an array or as a property value; [undefined] is
    written [null] in an array and its property is left out of an object. *)
Fixpoint stringify_value (v : JsValue) : string :=
  match v with
  | JUndefined | JNull => "null"
  | JBool true => "true"
  | JBool false => "false"
  | JNum z => pretty z
  | JStr s => quote s
  | JArr items => "[" +:+ String.concat "," (map stringify_value items) +:+ "]"
  | JObj fields =>
      let members :=
        (fix go (fs : list (string * JsValue)) : list string :=
           match fs with
           | [] => []
           | (_, JUndefined) :: rest => go rest
           | (k, v') :: rest => (quote k +:+ ":" +:+ stringify_value v') :: go rest
           end) fields in
      "{" +:+ String.concat "," members +:+ "}"
  end.

(** [JSON.stringify(v)]: [undefined] for [undefined], a string otherwise. *)
Definition JSON_stringify (v : JsValue) : option string :=
  match v with
  | JUndefined => None
  | _ => Some (stringify_value v)
  end.

(** A [string | undefined] where a string is expected: the string itself,
    and ["undefined"] for [undefined]. *)
Definition to_string (o : option string) : string := default "undefined" o.

(** A [string | null] inside a template literal. *)
Definition interpolate (o : option string) : string := default "null" o.

(** [String(v)], as [new Error(v)] does to its message. *)
Fixpoint js_String (v : JsValue) : string :=
  match v with
  | JUndefined => "undefined"
  | JNull => "null"
  | JBool true => "true"
  | JBool false => "false"
  | JNum z => pretty z
  | JStr s => s
  | JArr items =>
      String.concat ","
        (map (fun x => match x with
                       | JUndefined | JNull => EmptyString
                       | _ => js_String x
                       end) items)
  | JObj _ => "[object Object]"
  end.

(** [a || d] on any value. *)
Definition or_value (a d : JsValue) : JsValue := if truthy a then a else d.

End Js.
Import Js.

(** ** What crosses the wire *)

Module Wire.

(** A [fetch(url, init)] call. *)
Record Request : Type := mkRequest {
  url : string;
  method : string;
  headers : list (string * string);
  body : option string
}.

(** A [Response]: its status and what [response.json()] gives, a parsed
    value or the [SyntaxError] of a body that is not JSON. *)
Record Response : Type := mkResponse {
  status : Z;
  json : Exn + JsValue
}.

(** [response.ok]: the status is in the range 200-299. *)
Definition ok (r : Response) : bool :=
  (200 <=? status r)%Z && (status r <=? 299)%Z.

(** [fetch] resolves with a response or rejects (DNS, connection refused,
    timeout). *)
Inductive FetchResult : Type :=
| Rejected (e : Exn)
| Resolved (r : Response).

(** The request the query builder of the store's client has accumulated:
    [from(table)], then a verb, then filters and modifiers. *)
Inductive Verb : Type :=
| Select
| Insert (rows : list JsValue)
| Update (values : JsValue)
| Delete.

Record Query : Type := mkQuery {
  table : string;
  verb : Verb;
  columns : option string;          (* [select(columns)]; [select()] is all columns *)
  filters : list (string * JsValue); (* [eq(column, value)], in call order *)
  range : option (Z * Z);           (* [range(from, to)], both inclusive *)
  order : option (string * bool);   (* [order(column, { ascending })] *)
  single : bool                     (* [single()] *)
}.

Definition from (t : string) (v : Verb) : Query :=
  mkQuery t v None [] None None false.
Definition select (cols : string) (q : Query) : Query :=
  mkQuery (table q) (verb q) (Some cols) (filters q) (range q) (order q) (single q).
Definition eq (column : string) (value : JsValue) (q : Query) : Query :=
  mkQuery (table q) (verb q) (columns q) (filters q ++ [(column, value)])
          (range q) (order q) (single q).
Definition with_range (start stop : Z) (q : Query) : Query :=
  mkQuery (table q) (verb q) (columns q) (filters q) (Some (start, stop))
          (order q) (single q).
Definition with_order (column : string) (ascending : bool) (q : Query) : Query :=
  mkQuery (table q) (verb q) (columns q) (filters q) (range q)
          (Some (column, ascending)) (single q).
Definition with_single (q : Query) : Query :=
  mkQuery (table q) (verb q) (columns q) (filters q) (range q) (order q) true.

(** [{ data, error }]: exactly one of the two is set. *)
Inductive PgResult (A : Type) : Type :=
| PgData (data : A)
| PgError (error : PostgrestError).
Arguments PgData {A} data.
Arguments PgError {A} error.

End Wire.
Import Wire.

(** ** Rows of the remote store (schema.sql) *)

Module Schema.

(** Instants of [TIMESTAMP] columns, as the store orders them. *)
Abbreviation Timestamp := Z.

Record UserRow : Type := mkUserRow {
  u_id : Z;
  u_email : string;
  u_password_hash : string;
  u_full_name : option string;
  u_github_username : option string;
  u_github_token : option string;
  u_preferences : JsValue;
  u_created_at : Timestamp;
  u_updated_at : Timestamp
}.

Record ProjectRow : Type := mkProjectRow {
  p_id : Z;
  p_user_id : Z;
  p_name : string;
  p_description : option string;
  p_repo_url : string;
  p_repo_name : string;
  p_repo_owner : string;
  p_settings : JsValue;
  p_created_at : Timestamp;
  p_updated_at : Timestamp
}.

(** The embedded resource [tasks ( id, status )] of a project. *)
Record TaskStatus : Type := mkTaskStatus {
  ts_id : Z;
  ts_status : option string
}.

(** A row of [select('*, tasks ( id, status )')] on [projects]. *)
Record ProjectWithTasks : Type := mkProjectWithTasks {
  pt_row : ProjectRow;
  pt_tasks : option (list TaskStatus)
}.

Record TaskRow : Type := mkTaskRow {
  t_id : Z;
  t_user_id : Z;
  t_project_id : option Z;
  t_status : option string;
  t_repo_url : option string;
  t_target_branch : option string;
  t_agent : option string;
  t_pr_url : option string;
  t_pr_number : option Z;
  t_pr_branch : option string;
  t_error_message : option string;
  t_chat_messages : JsValue;
  t_created_at : Timestamp;
  t_updated_at : Timestamp
}.

(** The embedded resource [project:projects ( id, name, repo_name,
    repo_owner )] of a task. *)
Record ProjectRef : Type := mkProjectRef {
  pr_id : Z;
  pr_name : string;
  pr_repo_name : string;
  pr_repo_owner : string
}.

(** A row of [select('*, project:projects ( ... )')] on [tasks]. *)
Record Task : Type := mkTask {
  task_row : TaskRow;
  task_project : option ProjectRef
}.

(** [{ ...project, task_count, completed_tasks, active_tasks }] *)
Record ProjectWithStats : Type := mkProjectWithStats {
  project : ProjectWithTasks;
  task_count : Z;
  completed_tasks : Z;
  active_tasks : Z
}.

(** The identity [supabase.auth.getUser()] resolves. *)
Record AuthUser : Type := mkAuthUser {
  auth_id : string
}.

(** The remote store as the client sees it: the answer to each query,
    typed by the table it reads and by whether one row or many are asked
    for.  It is not code of this repository. *)
Record RemoteStore : Type := mkRemoteStore {
  auth_getUser : option AuthUser;
  projects_many : Query -> PgResult (option (list ProjectWithTasks));
  projects_one : Query -> PgResult ProjectRow;
  tasks_many : Query -> PgResult (option (list Task));
  tasks_one : Query -> PgResult Task;
  users_one : Query -> PgResult UserRow
}.

End Schema.
Import Schema.

(** ** The world a call runs in *)

Module Runtime.

Inductive LogLevel : Type := LLog | LWarn | LError.

Inductive LogArg : Type :=
| AStr (s : string)
| ANum (z : Z)
| AExn (e : Exn).

(** The handle [createClient(url, key, options)] returns. *)
Record SupabaseClient : Type := mkClient {
  supabaseUrl : string;
  supabaseAnonKey : string;
  autoRefreshToken : bool;
  persistSession : bool;
  detectSessionInUrl : bool
}.

Record World : Type := mkWorld {
  env : gmap string string;                 (* [process.env] *)
  localStorage : option (gmap string string); (* [None]: [typeof window === 'undefined'] *)
  console : list (LogLevel * list LogArg);
  supabaseInstance : option SupabaseClient;  (* module cell of lib/supabase.ts *)
  supabaseInitialized : bool;                (* module cell of lib/supabase.ts *)
  token : option string;                     (* [authService.token] *)
  fetched : list Request;                    (* the [fetch] calls made, oldest first *)
  queried : list Query                       (* the queries sent to the store, oldest first *)
}.

Inductive Outcome (A : Type) : Type :=
| Ret (a : A)
| Throw (e : Exn).
Arguments Ret {A} a.
Arguments Throw {A} e.

(** A call: from the world before to its outcome and the world after. *)
Definition M (A : Type) : Type := World -> Outcome A * World.

Definition ret {A} (a : A) : M A := fun w => (Ret a, w).
Definition throw {A} (e : Exn) : M A := fun w => (Throw e, w).
Definition bind {A B} (m : M A) (k : A -> M B) : M B :=
  fun w =>
    match m w with
    | (Ret a, w') => k a w'
    | (Throw e, w') => (Throw e, w')
    end.
(** [try { body } catch (error) { handler }] *)
Definition try_catch {A} (body : M A) (handler : Exn -> M A) : M A :=
  fun w =>
    match body w with
    | (Ret a, w') => (Ret a, w')
    | (Throw e, w') => handler e w'
    end.
(** An operation that gives a value or throws, lifted. *)
Definition lift {A} (r : Exn + A) : M A :=
  match r with
  | inl e => throw e
  | inr a => ret a
  end.

Declare Scope js_scope.
Delimit Scope js_scope with js.
Notation "'let*' x := m 'in' k" := (bind m (fun x => k))
  (at level 10, x binder, m at level 100, k at level 200) : js_scope.
Notation "m ;; k" := (bind m (fun _ => k))
  (at level 100, k at level 200, right associativity) : js_scope.
Notation "'try' b 'catch' x => h" := (try_catch b (fun x => h))
  (at level 10, b at level 200, x binder, h at level 200) : js_scope.

Definition get {A} (f : World -> A) : M A := fun w => (Ret (f w), w).
Definition modify (f : World -> World) : M unit := fun w => (Ret tt, f w).

Definition set_console c (w : World) : World :=
  mkWorld (env w) (localStorage w) c (supabaseInstance w)
          (supabaseInitialized w) (token w) (fetched w) (queried w).
Definition set_localStorage ls (w : World) : World :=
  mkWorld (env w) ls (console w) (supabaseInstance w)
          (supabaseInitialized w) (token w) (fetched w) (queried w).
Definition set_supabaseInstance i (w : World) : World :=
  mkWorld (env w) (localStorage w) (console w) i
          (supabaseInitialized w) (token w) (fetched w) (queried w).
Definition set_supabaseInitialized b (w : World) : World :=
  mkWorld (env w) (localStorage w) (console w) (supabaseInstance w)
          b (token w) (fetched w) (queried w).
Definition set_token t (w : World) : World :=
  mkWorld (env w) (localStorage w) (console w) (supabaseInstance w)
          (supabaseInitialized w) t (fetched w) (queried w).
Definition set_fetched f (w : World) : World :=
  mkWorld (env w) (localStorage w) (console w) (supabaseInstance w)
          (supabaseInitialized w) (token w) f (queried w).
Definition set_queried q (w : World) : World :=
  mkWorld (env w) (localStorage w) (console w) (supabaseInstance w)
          (supabaseInitialized w) (token w) (fetched w) q.
Definition set_env e (w : World) : World :=
  mkWorld e (localStorage w) (console w) (supabaseInstance w)
          (supabaseInitialized w) (token w) (fetched w) (queried w).

(** [console.log], [console.warn], [console.error] *)
Definition console_write (l : LogLevel) (args : list LogArg) : M unit :=
  modify (fun w => set_console (console w ++ [(l, args)]) w).
Definition console_log := console_write LLog.
Definition console_warn := console_write LWarn.
Definition console_error := console_write LError.

(** [process.env.NAME] *)
Definition process_env (name : string) : M (option string) :=
  get (fun w => env w !! name).

(** [typeof window !== 'undefined'] *)
Definition has_window : M bool :=
  get (fun w => bool_decide (is_Some (localStorage w))).

(** [localStorage.getItem], [setItem] and [removeItem]; the code calls
    them under a [has_window] test only, and without a window there is no
    store to change. *)
Definition localStorage_getItem (key : string) : M (option string) :=
  get (fun w => ls ← localStorage w; ls !! key).
Definition localStorage_setItem (key value : string) : M unit :=
  modify (fun w => set_localStorage (insert key value <$> localStorage w) w).
Definition localStorage_removeItem (key : string) : M unit :=
  modify (fun w => set_localStorage (delete key <$> localStorage w) w).

(** [await fetch(...)] against a network that answers [net]. *)
Definition fetch (net : Request -> FetchResult) (req : Request) : M Response :=
  fun w =>
    let w' := set_fetched (fetched w ++ [req]) w in
    match net req with
    | Rejected e => (Throw e, w')
    | Resolved r => (Ret r, w')
    end.

(** [await query]: the store's answer, the query recorded. *)
Definition send {A} (answer : Query -> PgResult A) (q : Query) : M (PgResult A) :=
  fun w => (Ret (answer q), set_queried (queried w ++ [q]) w).

End Runtime.
Import Runtime.
Local Open Scope js_scope.

(** Unfolds the monad and the primitives of a call, down to the worlds. *)
Ltac run_js :=
  cbv [bind ret throw try_catch lift get modify process_env has_window
       console_log console_warn console_error console_write
       localStorage_getItem localStorage_setItem localStorage_removeItem
       fetch send].

(** ** lib/supabase.ts: the mode resolver *)

(** @supabase/supabase-js is a library outside the repository.  Of its
    [createClient] the resolver needs one thing: for a URL and a key the
    call gives a handle, or it throws (the library throws on a URL it
    cannot parse, for one).  Which of the two happens is the library's
    business and a parameter of everything that calls the resolver. *)
Class SupabaseJs : Type := {
  createClient_throws : string -> string -> option Exn
}.

(** [createClient<Database>(url, key, { auth: { ... } })] *)
Definition createClient `{SupabaseJs} (url key : string)
  (autoRefresh persist detect : bool) : Exn + SupabaseClient :=
  match createClient_throws url key with
  | Some e => inl e
  | None => inr (mkClient url key autoRefresh persist detect)
  end.

(** The resolver that keeps an [supabaseInitialized] flag beside the
    instance. *)
Module Supabase.

Definition getSupabase `{SupabaseJs} : M (option SupabaseClient) :=
  let* initialized := get supabaseInitialized in
  (if negb initialized then
     let* supabaseUrl := process_env "NEXT_PUBLIC_SUPABASE_URL" in
     let* supabaseAnonKey := process_env "NEXT_PUBLIC_SUPABASE_ANON_KEY" in
     (if truthy_str supabaseUrl && truthy_str supabaseAnonKey then
        let* client :=
          lift (createClient (to_string supabaseUrl)
                             (to_string supabaseAnonKey) true true true) in
        modify (set_supabaseInstance (Some client)) ;;
        console_log [AStr "Supabase client initialized successfully"]
      else
        console_warn [AStr "Supabase credentials not configured - running without database"] ;;
        modify (set_supabaseInstance None)) ;;
     modify (set_supabaseInitialized true)
   else ret tt) ;;
  get supabaseInstance.

End Supabase.

(** The resolver that keeps the instance only. *)
Module SupabaseLazy.

Definition getSupabase `{SupabaseJs} : M (option SupabaseClient) :=
  let* instance := get supabaseInstance in
  if negb (bool_decide (is_Some instance)) then
    let* supabaseUrl := process_env "NEXT_PUBLIC_SUPABASE_URL" in
    let* supabaseAnonKey := process_env "NEXT_PUBLIC_SUPABASE_ANON_KEY" in
    if negb (truthy_str supabaseUrl) || negb (truthy_str supabaseAnonKey) then
      console_warn [AStr "Supabase credentials not configured. Running without database persistence."] ;;
      ret None
    else
      let* client :=
        lift (createClient (to_string supabaseUrl)
                           (to_string supabaseAnonKey) true true true) in
      modify (set_supabaseInstance (Some client)) ;;
      get supabaseInstance
  else get supabaseInstance.

End SupabaseLazy.

(** ** lib/auth-service.ts: the session manager *)

Module AuthService.

Record User : Type := mkUser {
  id : Z;
  email : string;
  full_name : option string;
  github_username : option string
}.

Section WithBackend.

(** [process.env] when the module is loaded, and what the backend answers. *)
Variable load_env : gmap string string.
Variable net : Request -> FetchResult.

Definition API_URL : string :=
  or_str (load_env !! "NEXT_PUBLIC_API_URL") "http://localhost:5000".

(** [new AuthService()]: the token is read from the durable store once. *)
Definition constructor : M unit :=
  modify (set_token None) ;;
  let* browser := has_window in
  if browser then
    let* stored := localStorage_getItem "auth_token" in
    modify (set_token stored)
  else ret tt.

Definition setToken (t : string) : M unit :=
  modify (set_token (Some t)) ;;
  let* browser := has_window in
  if browser then localStorage_setItem "auth_token" t else ret tt.

Definition clearToken : M unit :=
  modify (set_token None) ;;
  let* browser := has_window in
  if browser then localStorage_removeItem "auth_token" else ret tt.

Definition getCurrentUser : M JsValue :=
  let* held := get token in
  if negb (truthy_str held) then ret JNull
  else
    try
      (let* bearer := get token in
       let* response :=
         fetch net (mkRequest (API_URL +:+ "/api/auth/me") "GET"
                      [("Authorization", "Bearer " +:+ interpolate bearer)] None) in
       if negb (ok response) then
         (* Token is invalid or expired *)
         clearToken ;; ret JNull
       else
         let* data := lift (json response) in
         lift (get_prop data "user"))
    catch error =>
      (console_error [AStr "Error getting current user:"; AExn error] ;;
       clearToken ;;
       ret JNull).

Definition logout : M unit := clearToken.

Definition getToken : M (option string) := get token.

End WithBackend.

(** [AuthResponse]: what the backend sends when it grants a session.  The
    user is opaque here; the token is the string the interface declares.
    A 2xx answer whose body carries no string token is no [AuthResponse]
    and has no place in this type: what is proved of [register] and
    [login] is about failures, refusals and grants that issue a string
    token, and about nothing else. *)
Record AuthResponse : Type := mkAuthResponse {
  data_user : JsValue;
  data_token : string
}.

(** The backend's answer to a registration or a login: [!response.ok]
    with what [response.json()] gives, or [response.ok] with what it gives
    as an [AuthResponse]. *)
Inductive AuthReply : Type :=
| Refused (body : Exn + JsValue)
| Granted (body : Exn + AuthResponse).

Inductive AuthAnswer : Type :=
| Unreachable (e : Exn)
| Answered (r : AuthReply).

Section WithAuthBackend.

Variable load_env : gmap string string.
Variable backend : Request -> AuthAnswer.

(** [await fetch(...)] against the auth endpoints. *)
Definition fetch_auth (req : Request) : M AuthReply :=
  fun w =>
    let w' := set_fetched (fetched w ++ [req]) w in
    match backend req with
    | Unreachable e => (Throw e, w')
    | Answered r => (Ret r, w')
    end.

Definition opt_value (o : option string) : JsValue :=
  match o with
  | Some s => JStr s
  | None => JUndefined
  end.

Definition register (email password : string) (full_name : option string)
  : M AuthResponse :=
  let* response :=
    fetch_auth (mkRequest (API_URL load_env +:+ "/api/auth/register") "POST"
                  [("Content-Type", "application/json")]
                  (JSON_stringify
                     (JObj [("email", JStr email); ("password", JStr password);
                            ("full_name", opt_value full_name)]))) in
  match response with
  | Refused body =>
      let* error := lift body in
      let* message := lift (get_prop error "error") in
      throw (JsError (js_String (or_value message (JStr "Registration failed"))))
  | Granted body =>
      let* data := lift body in
      setToken (data_token data) ;;
      ret data
  end.

Definition login (email password : string) : M AuthResponse :=
  let* response :=
    fetch_auth (mkRequest (API_URL load_env +:+ "/api/auth/login") "POST"
                  [("Content-Type", "application/json")]
                  (JSON_stringify
                     (JObj [("email", JStr email); ("password", JStr password)]))) in
  match response with
  | Refused body =>
      let* error := lift body in
      let* message := lift (get_prop error "error") in
      throw (JsError (js_String (or_value message (JStr "Login failed"))))
  | Granted body =>
      let* data := lift body in
      setToken (data_token data) ;;
      ret data
  end.

End WithAuthBackend.

End AuthService.

(** ** lib/supabase-service.ts: the dual-mode data access layer *)

Module SupabaseService.

(** The argument of [createProject]. *)
Record ProjectData : Type := mkProjectData {
  name : string;
  description : option string;
  repo_url : string;
  repo_name : string;
  repo_owner : string;
  settings : option JsValue
}.

(** The argument of [updateUserProfile]; an absent [preferences] is
    [undefined]. *)
Record ProfileUpdates : Type := mkProfileUpdates {
  full_name : option string;
  github_username : option string;
  github_token : option string;
  preferences : JsValue
}.

(** The second argument of [getTasks]. *)
Record TaskOptions : Type := mkTaskOptions {
  limit : option Z;
  offset : option Z
}.

(** What [updateUserProfile] gives: [{ preferences }] in local mode, the
    updated row otherwise. *)
Inductive Profile : Type :=
| LocalProfile (prefs : JsValue)
| StoredProfile (row : UserRow).

(** The own properties of an argument object, as they are spread or sent. *)
Definition opt_field (k : string) (o : option string) : list (string * JsValue) :=
  match o with
  | Some s => [(k, JStr s)]
  | None => []
  end.

Definition projectData_fields (d : ProjectData) : list (string * JsValue) :=
  [("name", JStr (name d))] ++ opt_field "description" (description d)
  ++ [("repo_url", JStr (repo_url d)); ("repo_name", JStr (repo_name d));
      ("repo_owner", JStr (repo_owner d))]
  ++ match settings d with Some v => [("settings", v)] | None => [] end.

Definition updates_fields (u : ProfileUpdates) : list (string * JsValue) :=
  opt_field "full_name" (full_name u)
  ++ opt_field "github_username" (github_username u)
  ++ opt_field "github_token" (github_token u)
  ++ match preferences u with JUndefined => [] | v => [("preferences", v)] end.

(** [project.tasks?.length || 0] and its two filtered siblings *)
Definition withStats (p : ProjectWithTasks) : ProjectWithStats :=
  mkProjectWithStats p
    (or_num ((fun ts => Z.of_nat (List.length ts)) <$> pt_tasks p) 0)
    (or_num ((fun ts => Z.of_nat
                (List.length (filter (fun t => ts_status t = Some "completed") ts)))
               <$> pt_tasks p) 0)
    (or_num ((fun ts => Z.of_nat
                (List.length (filter (fun t => ts_status t = Some "running") ts)))
               <$> pt_tasks p) 0).

Definition tasks_columns : string :=
  "*, project:projects ( id, name, repo_name, repo_owner )".

(** The query [getTasks] has built when it awaits it. *)
Definition tasksQuery (tasks : Query) (projectId : option Z)
  (options : option TaskOptions) : Query :=
  let query := select tasks_columns tasks in
  let query :=
    if truthy_num projectId
    then eq "project_id" (JNum (default 0 projectId)) query
    else query in
  (* Add pagination if options provided *)
  let query :=
    if truthy_num (options ≫= limit) then
      let start := or_num (options ≫= offset) 0 in
      let stop := start + default 0 (options ≫= limit) - 1 in
      with_range start stop query
    else query in
  with_order "created_at" false query.

Section WithStore.

Context `{SupabaseJs}.
Variable store : RemoteStore.

(** [private static get supabase()].  [getSupabase] is the resolver
    imported from './supabase', taken here in its flag-keeping version. *)
Definition supabase : M (option SupabaseClient) :=
  let* client := Supabase.getSupabase in
  match client with
  | None =>
      console_warn [AStr "Supabase not configured - using local development mode"] ;;
      ret None
  | Some c => ret (Some c)
  end.

(** [this.supabase.from(...)]: the getter again, and a [TypeError] if it
    gives [null]. *)
Definition supabase_from (t : string) (v : Verb) : M Query :=
  let* client := supabase in
  match client with
  | None => throw (JsError "Cannot read properties of null, reading from")
  | Some _ => ret (from t v)
  end.

(** [await this.supabase.auth.getUser()], destructured to its user. *)
Definition supabase_auth_getUser : M (option AuthUser) :=
  let* client := supabase in
  match client with
  | None => throw (JsError "Cannot read properties of null, reading auth")
  | Some _ => ret (auth_getUser store)
  end.

Definition getProjects : M (list ProjectWithStats) :=
  let* client := supabase in
  if negb (bool_decide (is_Some client)) then ret []
  else
    try
      (let* q := supabase_from "projects" Select in
       let* r := send (projects_many store)
                   (with_order "created_at" false
                      (select "*, tasks ( id, status )" q)) in
       match r with
       | PgError error => throw (StoreFault error)
       | PgData data =>
           (* Add task statistics *)
           ret (default [] (map withStats <$> data))
       end)
    catch error =>
      (console_warn [AStr "Error loading projects:"; AExn error] ;;
       ret []).

Definition createProject (projectData : ProjectData) : M ProjectRow :=
  let* client := supabase in
  if negb (bool_decide (is_Some client)) then
    throw (JsError "Database not available in local development mode")
  else
    let* user := supabase_auth_getUser in
    match user with
    | None => throw (JsError "No authenticated user")
    | Some user =>
        let* q := supabase_from "projects"
                    (Insert [JObj (projectData_fields projectData
                                   ++ [("user_id", JStr (auth_id user))])]) in
        let* r := send (projects_one store) (with_single (select "*" q)) in
        match r with
        | PgError error => throw (StoreFault error)
        | PgData data => ret data
        end
    end.

Definition getProject (id : Z) : M (option ProjectRow) :=
  let* client := supabase in
  if negb (bool_decide (is_Some client)) then ret None
  else
    let* q := supabase_from "projects" Select in
    let* r := send (projects_one store)
                (with_single (eq "id" (JNum id) (select "*" q))) in
    match r with
    | PgError error =>
        if String.eqb (code error) "PGRST116" then ret None (* Not found *)
        else throw (StoreFault error)
    | PgData data => ret (Some data)
    end.

Definition getTasks (projectId : option Z) (options : option TaskOptions)
  : M (list Task) :=
  let* client := supabase in
  if negb (bool_decide (is_Some client)) then ret []
  else
    try
      (let* q := supabase_from "tasks" Select in
       let* r := send (tasks_many store) (tasksQuery q projectId options) in
       match r with
       | PgError error => throw (StoreFault error)
       | PgData data => ret (default [] data)
       end)
    catch error =>
      (console_warn [AStr "Error loading tasks:"; AExn error] ;;
       ret []).

Definition getTask (id : Z) : M (option Task) :=
  let* client := supabase in
  if negb (bool_decide (is_Some client)) then ret None
  else
    try
      (let* q := supabase_from "tasks" Select in
       let* r := send (tasks_one store)
                   (with_single (eq "id" (JNum id) (select tasks_columns q))) in
       match r with
       | PgError error =>
           if String.eqb (code error) "PGRST116" then ret None (* Not found *)
           else throw (StoreFault error)
       | PgData data => ret (Some data)
       end)
    catch error =>
      (console_warn [AStr "Error loading task:"; AExn error] ;;
       ret None).

Definition updateUserProfile (updates : ProfileUpdates) : M Profile :=
  let* client := supabase in
  if negb (bool_decide (is_Some client)) then
    (* In local dev mode, just store in localStorage *)
    let* browser := has_window in
    (if browser && truthy (preferences updates) then
       localStorage_setItem "user_preferences"
         (to_string (JSON_stringify (preferences updates)))
     else ret tt) ;;
    ret (LocalProfile (preferences updates))
  else
    let* user := supabase_auth_getUser in
    match user with
    | None => throw (JsError "No authenticated user")
    | Some user =>
        let* q := supabase_from "users" (Update (JObj (updates_fields updates))) in
        let* r := send (users_one store)
                    (with_single (select "*" (eq "id" (JStr (auth_id user)) q))) in
        match r with
        | PgError error => throw (StoreFault error)
        | PgData data => ret (StoredProfile data)
        end
    end.

End WithStore.

Section OtherOperations.

Context `{SupabaseJs}.
Variable store : RemoteStore.

(** [updates] are the own properties of the [Partial<Project>] given. *)
Definition updateProject (id : Z) (updates : list (string * JsValue))
  : M ProjectRow :=
  let* client := supabase in
  if negb (bool_decide (is_Some client)) then
    throw (JsError "Database not available in local development mode")
  else
    let* q := supabase_from "projects" (Update (JObj updates)) in
    let* r := send (projects_one store)
                (with_single (select "*" (eq "id" (JNum id) q))) in
    match r with
    | PgError error => throw (StoreFault error)
    | PgData data => ret data
    end.

Definition deleteProject (id : Z) : M unit :=
  let* client := supabase in
  if negb (bool_decide (is_Some client)) then
    throw (JsError "Database not available in local development mode")
  else
    let* q := supabase_from "projects" Delete in
    let* r := send (projects_many store) (eq "id" (JNum id) q) in
    match r with
    | PgError error => throw (StoreFault error)
    | PgData _ => ret tt
    end.

Definition getUserProfile : M (option UserRow) :=
  let* client := supabase in
  if negb (bool_decide (is_Some client)) then ret None
  else
    try
      (let* user := supabase_auth_getUser store in
       match user with
       | None => ret None
       | Some user =>
           let* q := supabase_from "users" Select in
           let* r := send (users_one store)
                       (with_single (eq "id" (JStr (auth_id user)) (select "*" q))) in
           match r with
           | PgError error =>
               if String.eqb (code error) "PGRST116" then ret None (* Not found *)
               else throw (StoreFault error)
           | PgData data => ret (Some data)
           end
       end)
    catch error =>
      (console_warn [AStr "Error loading user profile:"; AExn error] ;;
       ret None).

End OtherOperations.

End SupabaseService.

(** ** components/protected-route.tsx: the route guard *)

Module ProtectedRoute.

(** What [useAuth()] gives the guard. *)
Record AuthContextType : Type := mkAuthContext {
  user : option AuthService.User;
  loading : bool
}.

(** What the component returns: the spinner, its children, or [null]. *)
Inductive Element (Node : Type) : Type :=
| Spinner
| Fragment (children : Node)
| Null.
Arguments Spinner {Node}.
Arguments Fragment {Node} children.
Arguments Null {Node}.

(** [router.push(href)] *)
Inductive Navigation : Type :=
| push (href : string).

(** The effect of [useEffect] for this render.
    Only enforce authentication if Supabase is configured. *)
Definition effect (supabase : option SupabaseClient) (auth : AuthContextType)
  : list Navigation :=
  if bool_decide (is_Some supabase) && negb (loading auth)
     && negb (bool_decide (is_Some (user auth)))
  then [push "/signin"]
  else [].

Definition render {Node} (children : Node) (supabase : option SupabaseClient)
  (auth : AuthContextType) : Element Node :=
  if loading auth then Spinner
  (* If Supabase is not configured, allow access without authentication *)
  else if negb (bool_decide (is_Some supabase)) then Fragment children
  else if negb (bool_decide (is_Some (user auth))) then Null (* Will redirect *)
  else Fragment children.

(** One render of the component, inside an [AuthProvider] whose state is
    [auth]: the element returned and the navigations its effect makes. *)
Definition ProtectedRoute `{SupabaseJs} {Node} (children : Node)
  (auth : AuthContextType) : M (Element Node * list Navigation) :=
  let* supabase := Supabase.getSupabase in
  ret (render children supabase auth, effect supabase auth).

End ProtectedRoute.

(** ** contexts/auth-context.tsx: the auth state provider *)

Module AuthContext.

(** The two state cells of [AuthProvider]. *)
Record State : Type := mkState {
  user : JsValue;
  loading : bool
}.

(** [useState<User | null>(null)] and [useState(true)] *)
Definition initial : State := mkState JNull true.

Section WithBackend.

Variable load_env : gmap string string.
Variable net : Request -> FetchResult.
Variable backend : Request -> AuthService.AuthAnswer.


Definition login (email password : string) (s : State) : M State :=
  let* data := AuthService.login load_env backend email password in
  ret (mkState (AuthService.data_user data) (loading s)).

Definition register (email password : string) (fullName : option string)
  (s : State) : M State :=
  let* data := AuthService.register load_env backend email password fullName in
  ret (mkState (AuthService.data_user data) (loading s)).

Definition signOut (s : State) : M State :=
  AuthService.logout ;;
  ret (mkState JNull (loading s)).

End WithBackend.

End AuthContext.

(** ** app/signin/page.tsx: the sign-in page *)

Module SignIn.



(** What the component returns: the spinner, [null], or the form. *)
Inductive View : Type :=
| Spinner
| Null
| FormView.

(** The effect of [useEffect] for a render. *)
Definition effect (auth : ProtectedRoute.AuthContextType)
  : list ProtectedRoute.Navigation :=
  if bool_decide (is_Some (ProtectedRoute.user auth))
     && negb (ProtectedRoute.loading auth)
  then [ProtectedRoute.push "/"]
  else [].

Definition render (auth : ProtectedRoute.AuthContextType) : View :=
  if ProtectedRoute.loading auth then Spinner
  else if bool_decide (is_Some (ProtectedRoute.user auth)) then Null (* Will redirect *)
  else FormView.



Section WithAuth.

(** [login] and [register] of the context [useAuth()] gives. *)
Variable login : string -> string -> M unit.
Variable register : string -> string -> option string -> M unit.


End WithAuth.

End SignIn.

(** ** app/api/validate-token/route.ts: the backend forwarding endpoint *)

Module ValidateToken.

(** The incoming request: what [request.json()] gives. *)
Record NextRequest : Type := mkNextRequest {
  request_json : Exn + JsValue
}.

(** [NextResponse.json(body, { status })] *)
Record NextResponse : Type := NextResponse_json {
  response_body : JsValue;
  response_status : Z
}.

Section WithBackend.

Variable load_env : gmap string string.
Variable net : Request -> FetchResult.

Definition BACKEND_URL : string :=
  or_str (load_env !! "BACKEND_URL") "http://backend:5000".

Definition POST (request : NextRequest) : M NextResponse :=
  try
    (let* body := lift (request_json request) in
     console_log [AStr "[validate-token] Forwarding request to backend:";
                  AStr BACKEND_URL] ;;
     let* response :=
       fetch net (mkRequest (BACKEND_URL +:+ "/validate-token") "POST"
                    [("Content-Type", "application/json")]
                    (JSON_stringify body)) in
     console_log [AStr "[validate-token] Backend response status:";
                  ANum (status response)] ;;
     let* data := lift (json response) in
     ret (NextResponse_json data (status response)))
  catch error =>
    (console_error [AStr "[validate-token] Error details:"; AExn error] ;;
     (* Provide more specific error message *)
     let errorMessage := message_or error "Unknown error" in
     let detailedError :=
       "Failed to connect to backend service at " +:+ BACKEND_URL +:+ ": "
       +:+ errorMessage in
     ret (NextResponse_json
            (JObj [("error", JStr detailedError); ("status", JStr "error")])
            500)).

End WithBackend.

End ValidateToken.

(** ** The remote store's reading of a query

    How a PostgREST store answers a read: the rows that pass every [eq]
    filter, put in the requested order, cut to the requested range.  The
    store is outside this repository; this is the contract the data layer
    relies on when it asks for an order or a range. *)

Module Postgrest.

(** Equality of a column with the value of an [eq] filter. *)
Definition same_value (a b : JsValue) : bool :=
  match a, b with
  | JNum x, JNum y => Z.eqb x y
  | JStr x, JStr y => String.eqb x y
  | JBool x, JBool y => Bool.eqb x y
  | _, _ => false
  end.

(** The rank of a column value in an ordering (timestamps and numbers). *)
Definition sort_key (v : JsValue) : Z :=
  match v with
  | JNum z => z
  | _ => 0
  end.

Definition opt_num (o : option Z) : JsValue :=
  match o with Some z => JNum z | None => JNull end.
Definition opt_str (o : option string) : JsValue :=
  match o with Some s => JStr s | None => JNull end.

Definition project_column (c : string) (p : ProjectWithTasks) : JsValue :=
  let r := pt_row p in
  if String.eqb c "id" then JNum (p_id r)
  else if String.eqb c "user_id" then JNum (p_user_id r)
  else if String.eqb c "name" then JStr (p_name r)
  else if String.eqb c "description" then opt_str (p_description r)
  else if String.eqb c "repo_url" then JStr (p_repo_url r)
  else if String.eqb c "repo_name" then JStr (p_repo_name r)
  else if String.eqb c "repo_owner" then JStr (p_repo_owner r)
  else if String.eqb c "settings" then p_settings r
  else if String.eqb c "created_at" then JNum (p_created_at r)
  else if String.eqb c "updated_at" then JNum (p_updated_at r)
  else JUndefined.

Definition task_column (c : string) (t : Task) : JsValue :=
  let r := task_row t in
  if String.eqb c "id" then JNum (t_id r)
  else if String.eqb c "user_id" then JNum (t_user_id r)
  else if String.eqb c "project_id" then opt_num (t_project_id r)
  else if String.eqb c "status" then opt_str (t_status r)
  else if String.eqb c "repo_url" then opt_str (t_repo_url r)
  else if String.eqb c "target_branch" then opt_str (t_target_branch r)
  else if String.eqb c "agent" then opt_str (t_agent r)
  else if String.eqb c "pr_url" then opt_str (t_pr_url r)
  else if String.eqb c "pr_number" then opt_num (t_pr_number r)
  else if String.eqb c "pr_branch" then opt_str (t_pr_branch r)
  else if String.eqb c "error_message" then opt_str (t_error_message r)
  else if String.eqb c "chat_messages" then t_chat_messages r
  else if String.eqb c "created_at" then JNum (t_created_at r)
  else if String.eqb c "updated_at" then JNum (t_updated_at r)
  else JUndefined.

(** The rows of [l] at the positions [start] to [stop], both inclusive. *)
Definition rows_between {A} (start stop : Z) (l : list A) : list A :=
  take (Z.to_nat (stop + 1) - Z.to_nat start)%nat (drop (Z.to_nat start) l).

Section Rows.

Context {A : Type} (column : string -> A -> JsValue).

Definition passes (q : Query) (r : A) : Prop :=
  Forall (fun f => same_value (column f.1 r) f.2 = true) (filters q).

(** [a] may stand before [b] under [order(c, { ascending })]. *)
Definition before (c : string) (ascending : bool) (a b : A) : Prop :=
  if ascending
  then (sort_key (column c a) <= sort_key (column c b))%Z
  else (sort_key (column c b) <= sort_key (column c a))%Z.

Global Instance before_dec c asc a b : Decision (before c asc a b).
Proof. unfold before. destruct asc; apply _. Defined.

Definition in_order (o : option (string * bool)) (l : list A) : list A :=
  match o with
  | Some (c, ascending) => merge_sort (before c ascending) l
  | None => l
  end.

Definition in_range (r : option (Z * Z)) (l : list A) : list A :=
  match r with
  | Some (start, stop) => rows_between start stop l
  | None => l
  end.

Definition select_rows (rows : list A) (q : Query) : list A :=
  in_range (range q) (in_order (order q) (filter (passes q) rows)).

End Rows.

End Postgrest.

(** ** Vocabulary of the properties *)

Module Spec.

(** Configuration Mode, as the resolver of lib/supabase.ts reports it. *)
Definition unconfigured `{SupabaseJs} (w : World) : Prop :=
  fst (Supabase.getSupabase w) = Ret None.
Definition configured `{SupabaseJs} (c : SupabaseClient) (w : World) : Prop :=
  fst (Supabase.getSupabase w) = Ret (Some c).

(** What reading the mode off an environment gives: no client without
    both credentials; with them, the client [createClient] builds or the
    error it throws. *)
Definition from_env `{SupabaseJs} (e : gmap string string)
  : Outcome (option SupabaseClient) :=
  if truthy_str (e !! "NEXT_PUBLIC_SUPABASE_URL")
     && truthy_str (e !! "NEXT_PUBLIC_SUPABASE_ANON_KEY")
  then match createClient (to_string (e !! "NEXT_PUBLIC_SUPABASE_URL"))
                          (to_string (e !! "NEXT_PUBLIC_SUPABASE_ANON_KEY"))
                          true true true with
       | inl error => Throw error
       | inr client => Ret (Some client)
       end
  else Ret None.

(** What happens in a process after the first use of the resolver: the
    environment is reconfigured, or the resolver is called again. *)
Inductive Event : Type :=
| Reconfigure (e : gmap string string)
| Resolve.

Fixpoint run (resolver : M (option SupabaseClient)) (events : list Event)
  (w : World) : list (Outcome (option SupabaseClient)) * World :=
  match events with
  | [] => ([], w)
  | Reconfigure e :: rest => run resolver rest (set_env e w)
  | Resolve :: rest =>
      let (r, w') := resolver w in
      let (rs, w'') := run resolver rest w' in
      (r :: rs, w'')
  end.

(** The environment after the events. *)
Fixpoint env_after (events : list Event) (e : gmap string string)
  : gmap string string :=
  match events with
  | [] => e
  | Reconfigure e' :: rest => env_after rest e'
  | Resolve :: rest => env_after rest e
  end.

Fixpoint resolutions (events : list Event) : nat :=
  match events with
  | [] => 0
  | Reconfigure _ :: rest => resolutions rest
  | Resolve :: rest => S (resolutions rest)
  end.

(** Once the resolver has answered after the first use, later calls
    answer the same and change nothing, whatever the environment becomes:
    of the world, only the environment differs at the end, by the
    reconfigurations themselves. *)
Definition sticky (resolver : M (option SupabaseClient)) (w1 : World)
  (first : Outcome (option SupabaseClient)) : Prop :=
  forall events,
    run resolver events w1
    = (replicate (resolutions events) first, set_env (env_after events (env w1)) w1).

Definition Memoized (resolver : M (option SupabaseClient)) : Prop :=
  forall w, sticky resolver (snd (resolver w)) (fst (resolver w)).

(** The route guard's decision table. *)
Inductive GuardOutcome : Type :=
| LoadingView
| Content
| RedirectNoContent.

Definition decision_table (loading configured user_present : bool) : GuardOutcome :=
  match loading, configured, user_present with
  | true, _, _ => LoadingView
  | false, false, _ => Content
  | false, true, false => RedirectNoContent
  | false, true, true => Content
  end.

(** What an outcome looks like from outside: the element rendered and the
    navigations made. *)
Definition shows {Node} (children : Node) (o : GuardOutcome)
  : ProtectedRoute.Element Node * list ProtectedRoute.Navigation :=
  match o with
  | LoadingView => (ProtectedRoute.Spinner, [])
  | Content => (ProtectedRoute.Fragment children, [])
  | RedirectNoContent => (ProtectedRoute.Null, [ProtectedRoute.push "/signin"])
  end.

(** The identity probe sent with token [t]. *)
Definition probe (load_env : gmap string string) (t : string) : Request :=
  mkRequest (AuthService.API_URL load_env +:+ "/api/auth/me") "GET"
            [("Authorization", "Bearer " +:+ t)] None.

(** A non-success answer to a request: a network failure or a status
    outside 200-299. *)
Definition non_success (r : FetchResult) : Prop :=
  match r with
  | Rejected _ => True
  | Resolved resp => ok resp = false
  end.

(** The slot of the Durable Token Store, and the local preference cache. *)
Definition durable_token (w : World) : option string :=
  ls ← localStorage w; ls !! "auth_token".
Definition local_preferences (w : World) : option string :=
  ls ← localStorage w; ls !! "user_preferences".

(** The queries the read operations send. *)
Definition listProjects_query : Query :=
  with_order "created_at" false
    (select "*, tasks ( id, status )" (from "projects" Select)).
Definition getProject_query (id : Z) : Query :=
  with_single (eq "id" (JNum id) (select "*" (from "projects" Select))).
Definition getTask_query (id : Z) : Query :=
  with_single (eq "id" (JNum id)
                 (select SupabaseService.tasks_columns (from "tasks" Select))).
Definition listTasks_query (projectId : option Z)
  (options : option SupabaseService.TaskOptions) : Query :=
  SupabaseService.tasksQuery (from "tasks" Select) projectId options.

(** The number of tasks with a given status. *)
Fixpoint count_status (s : string) (ts : list TaskStatus) : Z :=
  match ts with
  | [] => 0
  | t :: rest =>
      (if bool_decide (ts_status t = Some s) then 1 else 0) + count_status s rest
  end.

(** Creation time descending: no row is older than a row after it. *)
Definition newest_first {A} (created_at : A -> Z) (a b : A) : Prop :=
  (created_at b <= created_at a)%Z.

Definition project_created (p : ProjectWithTasks) : Z := p_created_at (pt_row p).
Definition stats_created (p : ProjectWithStats) : Z := project_created (project p).
Definition task_created (t : Task) : Z := t_created_at (task_row t).

(** The tasks of a project, or all of them when none is asked for; the
    id 0, which no row has, asks for none, as an absent id does. *)
Definition of_project (projectId : option Z) (t : Task) : Prop :=
  truthy_num projectId = true -> t_project_id (task_row t) = projectId.

(** The page of a listing: the rows at the positions [offset] to
    [offset + limit - 1], or every row when no limit is given; an absent
    offset is 0. *)
Definition page {A} (options : option SupabaseService.TaskOptions) (l : list A)
  : list A :=
  if truthy_num (options ≫= SupabaseService.limit) then
    let offset := default 0 (options ≫= SupabaseService.offset) in
    let limit := default 0 (options ≫= SupabaseService.limit) in
    Postgrest.rows_between offset (offset + limit - 1) l
  else l.

(** The child tasks of a listed project. *)
Definition children_of (p : ProjectWithStats) : list TaskStatus :=
  default [] (pt_tasks (project p)).

(** The counters of a listed project are those of its child tasks. *)
Definition counted (p : ProjectWithStats) : Prop :=
  task_count p = Z.of_nat (List.length (children_of p))
  /\ completed_tasks p = count_status "completed" (children_of p)
  /\ active_tasks p = count_status "running" (children_of p).

(** The request the forwarding endpoint sends for a body, and its answer
    when the backend could not be reached. *)
Definition forwarded (load_env : gmap string string) (body : JsValue) : Request :=
  mkRequest (ValidateToken.BACKEND_URL load_env +:+ "/validate-token") "POST"
            [("Content-Type", "application/json")] (JSON_stringify body).

Definition connection_error (load_env : gmap string string) (detail : string)
  : ValidateToken.NextResponse :=
  ValidateToken.NextResponse_json
    (JObj [("error",
            JStr ("Failed to connect to backend service at "
                  +:+ ValidateToken.BACKEND_URL load_env +:+ ": " +:+ detail));
           ("status", JStr "error")])
    500.


(** The failure of a write in local mode. *)
Definition StoreUnavailable : Exn :=
  JsError "Database not available in local development mode".

(** The spec's claim on the local preference cache: whatever [P] is, the
    update writes it. *)
Definition writes_every_preference `{SupabaseJs} (store : RemoteStore) : Prop :=
  forall (w : World) (P : JsValue),
    unconfigured w ->
    exists w',
      SupabaseService.updateUserProfile store
        (SupabaseService.mkProfileUpdates None None None P) w
      = (Ret (SupabaseService.LocalProfile P), w')
      /\ local_preferences w' = Some (to_string (JSON_stringify P)).

(** The spec's claim on [getTask]: a fault other than row-not-found
    reaches the caller. *)
Definition getTask_propagates `{SupabaseJs} (store : RemoteStore) : Prop :=
  forall (w : World) (c : SupabaseClient) (id : Z) (error : PostgrestError),
    configured c w ->
    tasks_one store (getTask_query id) = PgError error ->
    code error <> "PGRST116" ->
    fst (SupabaseService.getTask store id w) = Throw (StoreFault error).


(** The requests of a login and of a registration. *)
Definition login_request (load_env : gmap string string) (email password : string)
  : Request :=
  mkRequest (AuthService.API_URL load_env +:+ "/api/auth/login") "POST"
            [("Content-Type", "application/json")]
            (JSON_stringify
               (JObj [("email", JStr email); ("password", JStr password)])).

Definition register_request (load_env : gmap string string)
  (email password : string) (full_name : option string) : Request :=
  mkRequest (AuthService.API_URL load_env +:+ "/api/auth/register") "POST"
            [("Content-Type", "application/json")]
            (JSON_stringify
               (JObj [("email", JStr email); ("password", JStr password);
                      ("full_name", AuthService.opt_value full_name)])).

(** An answer that grants a session. *)
Definition grants (a : AuthService.AuthAnswer) (data : AuthService.AuthResponse)
  : Prop :=
  a = AuthService.Answered (AuthService.Granted (inr data)).

(** The queries of the write operations and of the profile read. *)
Definition createProject_query (projectData : SupabaseService.ProjectData)
  (uid : string) : Query :=
  with_single
    (select "*"
       (from "projects"
          (Insert [JObj (SupabaseService.projectData_fields projectData
                         ++ [("user_id", JStr uid)])]))).
Definition updateProject_query (id : Z) (updates : list (string * JsValue)) : Query :=
  with_single (select "*" (eq "id" (JNum id) (from "projects" (Update (JObj updates))))).
Definition deleteProject_query (id : Z) : Query :=
  eq "id" (JNum id) (from "projects" Delete).
Definition getUserProfile_query (uid : string) : Query :=
  with_single (eq "id" (JStr uid) (select "*" (from "users" Select))).
Definition updateUserProfile_query (updates : SupabaseService.ProfileUpdates)
  (uid : string) : Query :=
  with_single
    (select "*"
       (eq "id" (JStr uid)
          (from "users" (Update (JObj (SupabaseService.updates_fields updates)))))).

(** A call that returns, whatever it returns. *)
Definition returns {A} (r : Outcome A * World) : Prop :=
  exists a w', r = (Ret a, w').


End Spec.
Import Spec.

(** ** Concrete worlds, networks and stores *)

Module Sample.

(** A browser tab at start-up: nothing stored, nothing resolved. *)
Definition fresh : World := mkWorld ∅ (Some ∅) [] None false None [] [].

Definition credentials : gmap string string :=
  <["NEXT_PUBLIC_SUPABASE_URL" := "https://db.example.co"]>
    (<["NEXT_PUBLIC_SUPABASE_ANON_KEY" := "anon-key"]> ∅).

(** The same tab in a deployment with a remote store. *)
Definition online : World := set_env credentials fresh.

Definition client : SupabaseClient :=
  mkClient "https://db.example.co" "anon-key" true true true.

(** A library that takes a URL with an http or https scheme and throws on
    any other. *)
Definition invalid_url : Exn :=
  JsError "Invalid supabaseUrl: Must be a valid HTTP or HTTPS URL.".
Definition supabase_js : SupabaseJs :=
  {| createClient_throws url _ :=
       if String.prefix "http://" url || String.prefix "https://" url
       then None else Some invalid_url |}.

(** A deployment whose URL lacks its scheme, and the tab in it. *)
Definition broken_credentials : gmap string string :=
  <["NEXT_PUBLIC_SUPABASE_URL" := "db.example.co"]>
    (<["NEXT_PUBLIC_SUPABASE_ANON_KEY" := "anon-key"]> ∅).
Definition misconfigured : World := set_env broken_credentials fresh.

(** A tab holding a token, in memory and in the durable store. *)
Definition signed_in : World :=
  set_token (Some "tok-1")
    (set_localStorage (Some (<["auth_token" := "tok-1"]> ∅)) fresh).

(** A backend that cannot be reached, and one that rejects every token. *)
Definition unreachable (_ : Request) : FetchResult :=
  Rejected (JsError "fetch failed").
Definition rejecting (_ : Request) : FetchResult :=
  Resolved (mkResponse 401 (inr (JObj [("error", JStr "Invalid token")]))).

Definition fault : PostgrestError :=
  mkPostgrestError "XX000" "internal error" EmptyString EmptyString.

Definition not_found : PostgrestError :=
  mkPostgrestError "PGRST116" "JSON object requested, multiple (or no) rows returned"
                   EmptyString EmptyString.

(** A project with three tasks, two completed and one running. *)
Definition project : ProjectWithTasks :=
  mkProjectWithTasks
    (mkProjectRow 1 42 "async-code" None "https://github.com/acme/async-code"
                  "async-code" "acme" (JObj []) 1000 1000)
    (Some [mkTaskStatus 11 (Some "completed");
           mkTaskStatus 12 (Some "running");
           mkTaskStatus 13 (Some "completed")]).

(** A task of project [pid] created at [created]. *)
Definition task (id pid created : Z) : Task :=
  mkTask (mkTaskRow id 42 (Some pid) (Some "pending") None None None None None
                    None None (JArr []) created created)
         (Some (mkProjectRef pid "async-code" "async-code" "acme")).

Definition tasks_table : list Task :=
  [task 1 7 10; task 2 8 25; task 3 7 30; task 4 7 20].

(** A store that holds these rows and answers the listings as PostgREST
    reads them; it finds no row by id. *)
Definition serving : RemoteStore :=
  mkRemoteStore
    (Some (mkAuthUser "user-42"))
    (fun q => PgData (Some (Postgrest.select_rows Postgrest.project_column [project] q)))
    (fun _ => PgError not_found)
    (fun q => PgData (Some (Postgrest.select_rows Postgrest.task_column tasks_table q)))
    (fun _ => PgError not_found)
    (fun _ => PgError not_found).

(** A store that answers every query with a fault. *)
Definition faulty : RemoteStore :=
  mkRemoteStore None (fun _ => PgError fault) (fun _ => PgError fault)
                (fun _ => PgError fault) (fun _ => PgError fault)
                (fun _ => PgError fault).

(** A backend that grants every credential the token "tok-9", one that
    grants an empty token, and one that refuses with a message. *)
Definition granted : AuthService.AuthResponse :=
  AuthService.mkAuthResponse
    (JObj [("id", JNum 1); ("email", JStr "a@x.com")]) "tok-9".
Definition granting (_ : Request) : AuthService.AuthAnswer :=
  AuthService.Answered (AuthService.Granted (inr granted)).
Definition granting_empty (_ : Request) : AuthService.AuthAnswer :=
  AuthService.Answered
    (AuthService.Granted (inr (AuthService.mkAuthResponse JNull EmptyString))).
Definition refusing (_ : Request) : AuthService.AuthAnswer :=
  AuthService.Answered
    (AuthService.Refused (inr (JObj [("error", JStr "Invalid credentials")]))).

(** A backend that knows every token. *)
Definition accepting (_ : Request) : FetchResult :=
  Resolved (mkResponse 200
              (inr (JObj [("user", JObj [("id", JNum 1); ("email", JStr "a@x.com")])]))).

(** A store with a signed-in identity that answers every query with a
    fault. *)
Definition faulty_signed_in : RemoteStore :=
  mkRemoteStore (Some (mkAuthUser "user-42"))
                (fun _ => PgError fault) (fun _ => PgError fault)
                (fun _ => PgError fault) (fun _ => PgError fault)
                (fun _ => PgError fault).

(** A project to create, and a sign-in form filled for a login. *)
Definition new_project : SupabaseService.ProjectData :=
  SupabaseService.mkProjectData "async-code" None
    "https://github.com/acme/async-code" "async-code" "acme" None.


Definition passing_login (_ _ : string) : M unit := ret tt.

(** A signed-in visitor and an anonymous one, both past loading. *)
Definition visitor : ProtectedRoute.AuthContextType :=
  ProtectedRoute.mkAuthContext None false.
Definition member : ProtectedRoute.AuthContextType :=
  ProtectedRoute.mkAuthContext (Some (AuthService.mkUser 1 "a@x.com" None None)) false.

End Sample.

(** * Properties *)

(** ** The monad's bookkeeping *)

Lemma set_env_same (w : World) : set_env (env w) w = w.
Proof. by destruct w. Qed.

(** ** The resolvers *)

Section Resolvers.

Context `{SupabaseJs}.

(** After the first use the flag is set, and the resolver is a read of the
    instance cell. *)
Lemma getSupabase_initialized (w : World) :
  supabaseInitialized w = true ->
  Supabase.getSupabase w = (Ret (supabaseInstance w), w).
Proof.
  intros Hinit. unfold Supabase.getSupabase. run_js. by rewrite Hinit.
Qed.

(** At the first use the mode is read off the environment.  When the
    reading gives a mode, the call returns it with the flag set; when
    [createClient] throws, so does the call, and nothing has changed. *)
Lemma getSupabase_first_use (w : World) :
  supabaseInitialized w = false ->
  match from_env (env w) with
  | Ret r =>
      exists w',
        Supabase.getSupabase w = (Ret r, w')
        /\ supabaseInitialized w' = true
        /\ supabaseInstance w' = r
        /\ env w' = env w /\ localStorage w' = localStorage w
        /\ token w' = token w /\ fetched w' = fetched w /\ queried w' = queried w
  | Throw e => Supabase.getSupabase w = (Throw e, w)
  end.
Proof.
  intros Hinit. unfold Supabase.getSupabase, from_env, createClient. run_js.
  rewrite Hinit. cbn [negb].
  destruct (truthy_str (env w !! "NEXT_PUBLIC_SUPABASE_URL")
            && truthy_str (env w !! "NEXT_PUBLIC_SUPABASE_ANON_KEY"));
    [destruct (createClient_throws _ _); [done|]|];
    eexists; repeat split.
Qed.

(** A call that returns leaves the flag set and has touched nothing but
    the two cells and the console. *)
Lemma getSupabase_returns (w : World) (r : option SupabaseClient) (w' : World) :
  Supabase.getSupabase w = (Ret r, w') ->
  supabaseInitialized w' = true
  /\ supabaseInstance w' = r
  /\ localStorage w' = localStorage w
  /\ token w' = token w /\ fetched w' = fetched w /\ queried w' = queried w.
Proof.
  destruct (supabaseInitialized w) eqn:Hinit.
  - rewrite getSupabase_initialized by done. by intros [= <- <-].
  - pose proof (getSupabase_first_use w Hinit) as Hfirst.
    destruct (from_env (env w)) as [r'|e].
    + destruct Hfirst as (w1 & -> & ? & ? & ? & ? & ? & ? & ?).
      by intros [= <- <-].
    + by rewrite Hfirst.
Qed.

(** A call that throws was a first use whose reading of the environment
    threw, and it has changed nothing: the flag is still unset. *)
Lemma getSupabase_throws (w : World) (e : Exn) (w' : World) :
  Supabase.getSupabase w = (Throw e, w') ->
  w' = w /\ supabaseInitialized w = false /\ from_env (env w) = Throw e.
Proof.
  destruct (supabaseInitialized w) eqn:Hinit.
  - by rewrite getSupabase_initialized by done.
  - pose proof (getSupabase_first_use w Hinit) as Hfirst.
    destruct (from_env (env w)) as [r'|e'].
    + by destruct Hfirst as (w1 & -> & _).
    + rewrite Hfirst. by intros [= <- <-].
Qed.

Lemma run_initialized (events : list Event) (w : World) :
  supabaseInitialized w = true ->
  run Supabase.getSupabase events w
  = (replicate (resolutions events) (Ret (supabaseInstance w)),
     set_env (env_after events (env w)) w).
Proof.
  revert w. induction events as [|[e|] events IH]; intros w Hinit;
    cbn [run env_after resolutions replicate].
  - by rewrite set_env_same.
  - rewrite IH by done. by destruct w.
  - rewrite getSupabase_initialized by done. rewrite IH by done. done.
Qed.

(** The same for the resolver without the flag, once it holds a client. *)
Lemma lazy_holding (w : World) (c : SupabaseClient) :
  supabaseInstance w = Some c ->
  SupabaseLazy.getSupabase w = (Ret (Some c), w).
Proof.
  intros Hc. unfold SupabaseLazy.getSupabase. run_js. rewrite Hc. cbn. by rewrite Hc.
Qed.

(** While it holds none, it reads the environment at every call; a
    reading that gives no client, or throws, leaves the cell empty. *)
Lemma lazy_empty (w : World) :
  supabaseInstance w = None ->
  fst (SupabaseLazy.getSupabase w) = from_env (env w)
  /\ env (snd (SupabaseLazy.getSupabase w)) = env w
  /\ match from_env (env w) with
     | Ret r => supabaseInstance (snd (SupabaseLazy.getSupabase w)) = r
     | Throw _ => snd (SupabaseLazy.getSupabase w) = w
     end.
Proof.
  intros Hc. unfold SupabaseLazy.getSupabase, from_env, createClient. run_js.
  rewrite Hc. cbn.
  destruct (truthy_str (env w !! "NEXT_PUBLIC_SUPABASE_URL"));
    destruct (truthy_str (env w !! "NEXT_PUBLIC_SUPABASE_ANON_KEY"));
    cbn; try done.
  by destruct (createClient_throws _ _).
Qed.

Lemma run_lazy_holding (events : list Event) (w : World) (c : SupabaseClient) :
  supabaseInstance w = Some c ->
  run SupabaseLazy.getSupabase events w
  = (replicate (resolutions events) (Ret (Some c)),
     set_env (env_after events (env w)) w).
Proof.
  revert w. induction events as [|[e|] events IH]; intros w Hc;
    cbn [run env_after resolutions replicate].
  - by rewrite set_env_same.
  - rewrite (IH (set_env e w)) by done. by destruct w.
  - rewrite (lazy_holding w c) by done. rewrite (IH w) by done. done.
Qed.

End Resolvers.

(** ** Configuration Mode *)

(** C6, as the code has it.  The resolver that keeps the
    [supabaseInitialized] flag reads the mode off the environment at its
    first use.  Once a call of it has returned, the mode is memoized:
    every later call answers what that call answered and changes nothing,
    however the environment is reconfigured in between.  A call in which
    [createClient] throws records nothing: the world is as it was, the
    flag unset, and the next call reads the environment again, whatever it
    has become.  The resolver that keeps the instance only is memoized in
    that way once it holds a client; while it holds none, each call reads
    the environment again and gives what the reading gives. *)
Theorem mode_memoized_once_resolved `{SupabaseJs} :
  (forall w, supabaseInitialized w = false ->
     fst (Supabase.getSupabase w) = from_env (env w))
  /\ (forall w r, fst (Supabase.getSupabase w) = Ret r ->
        sticky Supabase.getSupabase (snd (Supabase.getSupabase w)) (Ret r))
  /\ (forall w e, fst (Supabase.getSupabase w) = Throw e ->
        snd (Supabase.getSupabase w) = w
        /\ supabaseInitialized w = false
        /\ forall e', fst (Supabase.getSupabase (set_env e' w)) = from_env e')
  /\ (forall w c, fst (SupabaseLazy.getSupabase w) = Ret (Some c) ->
        sticky SupabaseLazy.getSupabase (snd (SupabaseLazy.getSupabase w))
               (Ret (Some c)))
  /\ (forall w, supabaseInstance w = None ->
        fst (SupabaseLazy.getSupabase w) = from_env (env w)).
Proof.
  assert (Hfirst : forall w, supabaseInitialized w = false ->
            fst (Supabase.getSupabase w) = from_env (env w)).
  { intros w Hinit. pose proof (getSupabase_first_use w Hinit) as Hrun.
    destruct (from_env (env w)) as [r|e].
    - by destruct Hrun as (w' & -> & _).
    - by rewrite Hrun. }
  split; [done|]. split; [|split; [|split]].
  - intros w r Hr events.
    destruct (Supabase.getSupabase w) as [o w'] eqn:Hrun. cbn [fst snd] in *.
    subst o. destruct (getSupabase_returns w r w' Hrun) as (Hinit & Hinst & _).
    rewrite run_initialized by done. by rewrite Hinst.
  - intros w e He.
    destruct (Supabase.getSupabase w) as [o w'] eqn:Hrun. cbn [fst snd] in *.
    subst o. destruct (getSupabase_throws w e w' Hrun) as (-> & Hinit & _).
    split; [done|]. split; [done|].
    intros e'. rewrite Hfirst; [by destruct w|by destruct w].
  - intros w c Hmode events.
    destruct (supabaseInstance w) as [c'|] eqn:Hc.
    + rewrite (lazy_holding w c') in * by done. cbn [fst snd] in *.
      injection Hmode as ->. by apply run_lazy_holding.
    + destruct (lazy_empty w Hc) as (Hrun & _ & Hinst).
      rewrite Hmode in Hrun. rewrite <- Hrun in Hinst.
      by apply run_lazy_holding.
  - intros w Hc. by destruct (lazy_empty w Hc) as (-> & _).
Qed.

Section ResolversAtWork.

#[local] Existing Instance Sample.supabase_js.

(** In a tab that starts without credentials, the flag-keeping resolver
    goes on answering "not configured" after the credentials appear.  In a
    deployment whose URL lacks its scheme the call throws and records
    nothing, and once the URL is put right the next call answers a
    client.  With credentials from the start, the other resolver keeps its
    client after they are gone. *)
Lemma mode_memoized_once_resolved_witness :
  run Supabase.getSupabase
      [Reconfigure Sample.credentials; Resolve; Resolve]
      (snd (Supabase.getSupabase Sample.fresh))
  = (replicate 2 (Ret None),
     set_env Sample.credentials (snd (Supabase.getSupabase Sample.fresh)))
  /\ fst (Supabase.getSupabase Sample.online) = Ret (Some Sample.client)
  /\ (Supabase.getSupabase Sample.misconfigured
      = (Throw Sample.invalid_url, Sample.misconfigured)
      /\ fst (Supabase.getSupabase (set_env Sample.credentials Sample.misconfigured))
         = Ret (Some Sample.client))
  /\ run SupabaseLazy.getSupabase [Reconfigure ∅; Resolve]
         (snd (SupabaseLazy.getSupabase Sample.online))
     = ([Ret (Some Sample.client)],
        set_env ∅ (snd (SupabaseLazy.getSupabase Sample.online)))
  /\ fst (SupabaseLazy.getSupabase Sample.fresh) = Ret None.
Proof.
  destruct mode_memoized_once_resolved
    as (Hfirst & Hflag & Hthrown & Hlazy & Hempty).
  split; [|split; [|split; [|split]]].
  - exact (Hflag Sample.fresh None eq_refl
             [Reconfigure Sample.credentials; Resolve; Resolve]).
  - exact (Hfirst Sample.online eq_refl).
  - destruct (Hthrown Sample.misconfigured Sample.invalid_url eq_refl)
      as (Hsame & _ & Hagain).
    split; [|exact (Hagain Sample.credentials)].
    rewrite <- Hsame at 2. reflexivity.
  - exact (Hlazy Sample.online Sample.client eq_refl [Reconfigure ∅; Resolve]).
  - exact (Hempty Sample.fresh eq_refl).
Defined.

(** C6, as the claim states it, fails for the resolver that keeps the
    instance only: a tab that starts without credentials answers "not
    configured", and after the environment gains them the next call
    answers a client. *)
Lemma lazy_resolver_not_memoized :
  fst (SupabaseLazy.getSupabase Sample.fresh) = Ret None
  /\ fst (run SupabaseLazy.getSupabase [Reconfigure Sample.credentials; Resolve]
              (snd (SupabaseLazy.getSupabase Sample.fresh)))
     = [Ret (Some Sample.client)]
  /\ ~ Memoized SupabaseLazy.getSupabase.
Proof.
  split; [reflexivity|]. split; [reflexivity|].
  intros Hmemo.
  specialize (Hmemo Sample.fresh [Reconfigure Sample.credentials; Resolve]).
  vm_compute in Hmemo. discriminate Hmemo.
Qed.

(** The sample tabs under the sample library: a client with the
    credentials, no mode to speak of with the broken URL. *)
Lemma online_configured : configured Sample.client Sample.online.
Proof. reflexivity. Qed.

Lemma misconfigured_throws :
  Supabase.getSupabase Sample.misconfigured
  = (Throw Sample.invalid_url, Sample.misconfigured).
Proof. reflexivity. Qed.

End ResolversAtWork.

(** ** The route guard *)

(** C2.  One render of the guard with the resolver's answer in hand shows
    what the decision table says for the triple (loading, configured, user
    present), where "configured" is that the resolver answered a client:
    the loading view while loading, whatever the rest; the content when
    not configured, with or without a user and with no redirect; a
    redirect to the sign-in page and nothing rendered when configured
    without a user; the content when configured with a user.  The
    resolver is called first, outside any [try]: when it throws, the
    render throws the same error and there is no decision. *)
Theorem ProtectedRoute_decision_table `{SupabaseJs} {Node : Type}
  (children : Node) (auth : ProtectedRoute.AuthContextType) (w : World) :
  (forall supabase w',
     Supabase.getSupabase w = (Ret supabase, w') ->
     ProtectedRoute.ProtectedRoute children auth w
     = (Ret (shows children
               (decision_table (ProtectedRoute.loading auth)
                  (bool_decide (is_Some supabase))
                  (bool_decide (is_Some (ProtectedRoute.user auth))))),
        w'))
  /\ (forall e w',
        Supabase.getSupabase w = (Throw e, w') ->
        ProtectedRoute.ProtectedRoute children auth w = (Throw e, w')).
Proof.
  unfold ProtectedRoute.ProtectedRoute. run_js. split.
  - intros supabase w' ->.
    unfold ProtectedRoute.render, ProtectedRoute.effect.
    destruct auth as [[u|] [|]], supabase as [c|]; reflexivity.
  - by intros e w' ->.
Qed.

(** An unconfigured deployment never redirects, with or without a user,
    loading or not. *)
Lemma unconfigured_never_redirects `{SupabaseJs} {Node : Type} (children : Node)
  (auth : ProtectedRoute.AuthContextType) (w : World) :
  unconfigured w ->
  exists element w',
    ProtectedRoute.ProtectedRoute children auth w = (Ret (element, []), w').
Proof.
  unfold unconfigured, ProtectedRoute.ProtectedRoute. run_js.
  destruct (Supabase.getSupabase w) as [o w'].
  cbn [fst]. intros ->. eexists _, w'.
  unfold ProtectedRoute.effect. by destruct (ProtectedRoute.loading auth).
Qed.

Section GuardAtWork.

#[local] Existing Instance Sample.supabase_js.

(** The four rows of the table, and a deployment whose URL lacks its
    scheme: a loading render shows the spinner; without credentials an
    anonymous visitor sees the content; with them the visitor is sent to
    the sign-in page and a member sees the content; with the broken URL
    the render throws. *)
Lemma ProtectedRoute_decision_table_witness :
  fst (ProtectedRoute.ProtectedRoute tt
         (ProtectedRoute.mkAuthContext None true) Sample.online)
  = Ret (ProtectedRoute.Spinner, [])
  /\ fst (ProtectedRoute.ProtectedRoute tt Sample.visitor Sample.fresh)
     = Ret (ProtectedRoute.Fragment tt, [])
  /\ fst (ProtectedRoute.ProtectedRoute tt Sample.visitor Sample.online)
     = Ret (ProtectedRoute.Null, [ProtectedRoute.push "/signin"])
  /\ fst (ProtectedRoute.ProtectedRoute tt Sample.member Sample.online)
     = Ret (ProtectedRoute.Fragment tt, [])
  /\ fst (ProtectedRoute.ProtectedRoute tt Sample.visitor Sample.misconfigured)
     = Throw Sample.invalid_url.
Proof.
  split; [|split; [|split; [|split]]].
  - exact (f_equal fst
             (proj1 (ProtectedRoute_decision_table tt
                       (ProtectedRoute.mkAuthContext None true) Sample.online)
                _ _ eq_refl)).
  - exact (f_equal fst
             (proj1 (ProtectedRoute_decision_table tt Sample.visitor Sample.fresh)
                _ _ eq_refl)).
  - exact (f_equal fst
             (proj1 (ProtectedRoute_decision_table tt Sample.visitor Sample.online)
                _ _ eq_refl)).
  - exact (f_equal fst
             (proj1 (ProtectedRoute_decision_table tt Sample.member Sample.online)
                _ _ eq_refl)).
  - exact (f_equal fst
             (proj2 (ProtectedRoute_decision_table tt Sample.visitor
                       Sample.misconfigured)
                _ _ eq_refl)).
Defined.

End GuardAtWork.

(** ** The session manager *)

Section Session.

Variable load_env : gmap string string.
Variable net : Request -> FetchResult.

(** Clearing the token empties the in-memory field and the durable slot,
    with or without a window, and sends nothing. *)
Lemma clearToken_purges (w : World) :
  exists w',
    AuthService.clearToken w = (Ret tt, w')
    /\ token w' = None /\ durable_token w' = None
    /\ fetched w' = fetched w.
Proof.
  unfold AuthService.clearToken, durable_token. run_js.
  destruct w as [e [ls|] c i b t f q]; cbn; eexists; repeat split.
  cbn. apply lookup_delete_eq.
Qed.

Ltac purge W :=
  let w' := fresh "w'" in
  let Hrun := fresh "Hrun" in
  let Hsent := fresh "Hsent" in
  destruct (clearToken_purges W) as (w' & Hrun & ? & ? & Hsent);
  rewrite Hrun; cbn [fst snd]; cbn in Hsent.

(** C1.  [getCurrentUser] returns in every state and never throws.  When
    no token is held it returns [null] and leaves the world as it was, so
    nothing is sent.  When a token is held, exactly the identity probe is
    sent, and if its answer is a non-success one (the network fails or the
    status is not 2xx) the result is [null] and the token is gone from
    memory and from the Durable Token Store.  A token is held when
    [this.token] is truthy. *)
Theorem getCurrentUser_never_fails (w : World) :
  exists v w',
    AuthService.getCurrentUser load_env net w = (Ret v, w')
    /\ (truthy_str (token w) = false -> v = JNull /\ w' = w)
    /\ (forall t, token w = Some t -> truthy_str (Some t) = true ->
          fetched w' = (fetched w ++ [probe load_env t])%list
          /\ (non_success (net (probe load_env t)) ->
                v = JNull /\ token w' = None /\ durable_token w' = None)).
Proof.
  unfold AuthService.getCurrentUser. run_js.
  destruct (truthy_str (token w)) eqn:Hheld; cbn [negb].
  2:{ exists JNull, w. split; [done|]. split; [done|].
      intros t Ht Ht'. rewrite Ht in Hheld. congruence. }
  destruct (token w) as [t|] eqn:Ht; [|done].
  change (interpolate (Some t)) with t. fold (probe load_env t).
  destruct (net (probe load_env t)) as [e|r] eqn:Hnet.
  - match goal with |- context [AuthService.clearToken ?W] => purge W end.
    exists JNull, w'. split; [done|]. split; [done|].
    intros ? [= <-] _. split; [congruence|]. by intros _.
  - destruct (ok r) eqn:Hok; cbn [negb].
    + destruct (json r) as [e|data]; [|destruct (get_prop data "user") as [e|u]].
      * match goal with |- context [AuthService.clearToken ?W] => purge W end.
        exists JNull, w'. split; [done|]. split; [done|].
        intros ? [= <-] _. split; [congruence|]. by intros _.
      * match goal with |- context [AuthService.clearToken ?W] => purge W end.
        exists JNull, w'. split; [done|]. split; [done|].
        intros ? [= <-] _. split; [congruence|]. by intros _.
      * eexists u, _. split; [done|]. split; [done|].
        intros ? [= <-] _. split; [done|]. rewrite Hnet. cbn. congruence.
    + match goal with |- context [AuthService.clearToken ?W] => purge W end.
      exists JNull, w'. split; [done|]. split; [done|].
      intros ? [= <-] _. split; [congruence|]. by intros _.
Qed.

(** The token mirror is loaded from the durable store at construction. *)
Lemma constructor_loads (w : World) :
  exists w',
    AuthService.constructor w = (Ret tt, w') /\ token w' = durable_token w.
Proof.
  unfold AuthService.constructor, durable_token. run_js.
  destruct w as [e [ls|] c i b t f q]; cbn; by eexists.
Qed.

(** After [logout] the next [getCurrentUser] is [null], with nothing sent. *)
Lemma logout_then_absent (w : World) :
  exists w',
    AuthService.logout w = (Ret tt, w')
    /\ AuthService.getCurrentUser load_env net w' = (Ret JNull, w')
    /\ durable_token w' = None.
Proof.
  destruct (clearToken_purges w) as (w' & Hrun & Htoken & Hstore & _).
  exists w'. split; [done|]. split; [|done].
  unfold AuthService.getCurrentUser. run_js. by rewrite Htoken.
Qed.

End Session.

(** A tab holding a token: with the backend unreachable, and with a
    backend that answers 401, the result is [null] and the token is
    purged. *)
Lemma getCurrentUser_never_fails_witness :
  (exists v w',
     AuthService.getCurrentUser ∅ Sample.unreachable Sample.signed_in = (Ret v, w')
     /\ v = JNull /\ token w' = None /\ durable_token w' = None)
  /\ (exists v w',
        AuthService.getCurrentUser ∅ Sample.rejecting Sample.signed_in = (Ret v, w')
        /\ v = JNull /\ token w' = None /\ durable_token w' = None).
Proof.
  split.
  - destruct (getCurrentUser_never_fails ∅ Sample.unreachable Sample.signed_in)
      as (v & w' & Hrun & _ & Hheld).
    destruct (Hheld "tok-1" eq_refl eq_refl) as [_ Hpurged].
    exists v, w'. split; [exact Hrun | exact (Hpurged I)].
  - destruct (getCurrentUser_never_fails ∅ Sample.rejecting Sample.signed_in)
      as (v & w' & Hrun & _ & Hheld).
    destruct (Hheld "tok-1" eq_refl eq_refl) as [_ Hpurged].
    exists v, w'. split; [exact Hrun | exact (Hpurged eq_refl)].
Defined.

(** ** The data access layer: the mode getter *)

Section Getter.

Context `{SupabaseJs}.

(** The getter in local mode: a warning, and nothing else changes. *)
Lemma supabase_unconfigured (w : World) :
  unconfigured w ->
  exists w',
    SupabaseService.supabase w = (Ret None, w')
    /\ localStorage w' = localStorage w
    /\ fetched w' = fetched w /\ queried w' = queried w.
Proof.
  unfold unconfigured, SupabaseService.supabase. run_js.
  destruct (Supabase.getSupabase w) as [o w'] eqn:Hrun.
  cbn [fst]. intros ->.
  destruct (getSupabase_returns w None w' Hrun) as (_ & _ & ? & _ & ? & ?).
  eexists. split; [done|]. by cbn.
Qed.

(** The getter in configured mode: the client, with the mode resolved. *)
Lemma supabase_configured (c : SupabaseClient) (w : World) :
  configured c w ->
  exists w',
    SupabaseService.supabase w = (Ret (Some c), w')
    /\ supabaseInitialized w' = true /\ supabaseInstance w' = Some c
    /\ localStorage w' = localStorage w
    /\ fetched w' = fetched w /\ queried w' = queried w.
Proof.
  unfold configured, SupabaseService.supabase. run_js.
  destruct (Supabase.getSupabase w) as [o w'] eqn:Hrun.
  cbn [fst]. intros ->.
  destruct (getSupabase_returns w (Some c) w' Hrun) as (? & ? & ? & _ & ? & ?).
  by exists w'.
Qed.

(** Once the mode is resolved to a client, the getter changes nothing. *)
Lemma supabase_resolved (c : SupabaseClient) (w : World) :
  supabaseInitialized w = true -> supabaseInstance w = Some c ->
  SupabaseService.supabase w = (Ret (Some c), w).
Proof.
  intros Hinit Hc. unfold SupabaseService.supabase. run_js.
  rewrite getSupabase_initialized by done. by rewrite Hc.
Qed.

Lemma supabase_from_resolved (c : SupabaseClient) (w : World) t v :
  supabaseInitialized w = true -> supabaseInstance w = Some c ->
  SupabaseService.supabase_from t v w = (Ret (from t v), w).
Proof.
  intros Hinit Hc. unfold SupabaseService.supabase_from. run_js.
  by rewrite (supabase_resolved c).
Qed.

End Getter.

(** ** The data access layer in local mode *)

(** A truthy value has a JSON text, and that text is what is stored. *)
Lemma stringify_truthy (v : JsValue) :
  truthy v = true -> Some (to_string (JSON_stringify v)) = JSON_stringify v.
Proof. by destruct v. Qed.

Section LocalMode.

Context `{SupabaseJs}.
Variable store : RemoteStore.

(** C3.  In unconfigured mode [getProjects] and [getTasks] return the
    empty list, whatever their arguments, the store and the world; they
    do not throw, and no query is sent. *)
Theorem list_reads_empty_when_unconfigured (w : World) (projectId : option Z)
  (options : option SupabaseService.TaskOptions) :
  unconfigured w ->
  SupabaseService.getProjects store w = (Ret [], snd (SupabaseService.supabase w))
  /\ SupabaseService.getTasks store projectId options w
     = (Ret [], snd (SupabaseService.supabase w))
  /\ queried (snd (SupabaseService.supabase w)) = queried w.
Proof.
  intros Hmode.
  destruct (supabase_unconfigured w Hmode) as (w' & Hrun & _ & _ & Hq).
  unfold SupabaseService.getProjects, SupabaseService.getTasks. run_js.
  rewrite Hrun. by cbn.
Qed.

(** C4, as the code has it.  In unconfigured mode [createProject] throws
    the error "Database not available in local development mode" for
    every argument.  [updateUserProfile] returns [{ preferences: P }] for
    every [P], without a query; it stores [JSON.stringify(P)] in the local
    preference cache when there is a browser window and [P] is truthy,
    and leaves the cache as it was otherwise. *)
Theorem local_mode_writes (w : World) :
  unconfigured w ->
  (forall projectData,
      SupabaseService.createProject store projectData w
      = (Throw StoreUnavailable, snd (SupabaseService.supabase w)))
  /\ (forall updates, exists w',
        SupabaseService.updateUserProfile store updates w
        = (Ret (SupabaseService.LocalProfile (SupabaseService.preferences updates)), w')
        /\ queried w' = queried w
        /\ local_preferences w'
           = if bool_decide (is_Some (localStorage w))
                && truthy (SupabaseService.preferences updates)
             then JSON_stringify (SupabaseService.preferences updates)
             else local_preferences w).
Proof.
  intros Hmode.
  destruct (supabase_unconfigured w Hmode) as (w1 & Hrun & Hls & _ & Hq).
  split.
  - intros projectData. unfold SupabaseService.createProject. run_js.
    rewrite Hrun. by cbn.
  - intros updates. unfold SupabaseService.updateUserProfile. run_js.
    rewrite Hrun. cbn [negb bool_decide decide_rel]. cbn.
    rewrite Hls.
    destruct (bool_decide (is_Some (localStorage w))
              && truthy (SupabaseService.preferences updates)) eqn:Hguard;
      eexists; (split; [done|]); cbn; (split; [done|]).
    + unfold local_preferences. cbn. rewrite Hls.
      apply andb_prop in Hguard as [Hwin Htruthy].
      apply bool_decide_eq_true in Hwin as [ls Hwin]. rewrite Hwin. cbn.
      rewrite lookup_insert_eq. by apply stringify_truthy.
    + unfold local_preferences. by rewrite Hls.
Qed.

End LocalMode.

Section LocalModeAtWork.

#[local] Existing Instance Sample.supabase_js.

(** A fresh tab without credentials: both listings are empty. *)
Lemma list_reads_empty_when_unconfigured_witness :
  SupabaseService.getProjects Sample.faulty Sample.fresh
  = (Ret [], snd (SupabaseService.supabase Sample.fresh))
  /\ SupabaseService.getTasks Sample.faulty (Some 7)
       (Some (SupabaseService.mkTaskOptions (Some 10) (Some 20))) Sample.fresh
     = (Ret [], snd (SupabaseService.supabase Sample.fresh))
  /\ queried (snd (SupabaseService.supabase Sample.fresh)) = queried Sample.fresh.
Proof.
  apply (list_reads_empty_when_unconfigured Sample.faulty Sample.fresh).
  reflexivity.
Defined.

(** A fresh tab without credentials: a theme preference is returned and
    cached. *)
Lemma local_mode_writes_witness :
  exists w',
    SupabaseService.updateUserProfile Sample.faulty
      (SupabaseService.mkProfileUpdates None None None
         (JObj [("theme", JStr "dark")])) Sample.fresh
    = (Ret (SupabaseService.LocalProfile (JObj [("theme", JStr "dark")])), w')
    /\ local_preferences w'
       = JSON_stringify (JObj [("theme", JStr "dark")]).
Proof.
  destruct (local_mode_writes Sample.faulty Sample.fresh eq_refl) as [_ Hupdate].
  destruct (Hupdate (SupabaseService.mkProfileUpdates None None None
                       (JObj [("theme", JStr "dark")])))
    as (w' & Hrun & _ & Hcache).
  exists w'. split; [exact Hrun | exact Hcache].
Defined.

(** C4, as the claim states it, fails: with [P = null] the update returns
    [{ preferences: null }] and writes nothing, so the cache of a fresh
    tab stays empty. *)
Lemma local_mode_skips_falsy_preferences :
  fst (SupabaseService.updateUserProfile Sample.faulty
         (SupabaseService.mkProfileUpdates None None None JNull) Sample.fresh)
  = Ret (SupabaseService.LocalProfile JNull)
  /\ local_preferences
       (snd (SupabaseService.updateUserProfile Sample.faulty
               (SupabaseService.mkProfileUpdates None None None JNull)
               Sample.fresh))
     = None
  /\ ~ writes_every_preference Sample.faulty.
Proof.
  split; [reflexivity|]. split; [reflexivity|].
  intros Hwrites.
  destruct (Hwrites Sample.fresh JNull eq_refl) as (w' & Hrun & Hcache).
  vm_compute in Hrun. injection Hrun as <-.
  vm_compute in Hcache. discriminate Hcache.
Qed.

End LocalModeAtWork.

(** ** The data access layer in configured mode: reads by id *)

Section ById.

Context `{SupabaseJs}.
Variable store : RemoteStore.

(** C5, as the code has it.  In configured mode [getProject] returns the
    row the store gives, returns [null] exactly when the store reports
    the row-not-found fault (code PGRST116), and throws every other fault
    as it came.  [getTask] returns the row the store gives and returns
    [null] on every fault, row-not-found or not: it never throws. *)
Theorem get_by_id_faults (c : SupabaseClient) (w : World) (id : Z) :
  configured c w ->
  (forall row, projects_one store (getProject_query id) = PgData row ->
     fst (SupabaseService.getProject store id w) = Ret (Some row))
  /\ (fst (SupabaseService.getProject store id w) = Ret None <->
      exists error, projects_one store (getProject_query id) = PgError error
                    /\ code error = "PGRST116")
  /\ (forall error, projects_one store (getProject_query id) = PgError error ->
        code error <> "PGRST116" ->
        fst (SupabaseService.getProject store id w) = Throw (StoreFault error))
  /\ (forall row, tasks_one store (getTask_query id) = PgData row ->
        fst (SupabaseService.getTask store id w) = Ret (Some row))
  /\ (fst (SupabaseService.getTask store id w) = Ret None <->
      exists error, tasks_one store (getTask_query id) = PgError error)
  /\ (forall e, fst (SupabaseService.getTask store id w) <> Throw e).
Proof.
  intros Hmode.
  destruct (supabase_configured c w Hmode) as (w1 & Hrun & Hinit & Hc & _).
  assert (Hproject :
    fst (SupabaseService.getProject store id w)
    = match projects_one store (getProject_query id) with
      | PgData row => Ret (Some row)
      | PgError error =>
          if String.eqb (code error) "PGRST116" then Ret None
          else Throw (StoreFault error)
      end).
  { unfold SupabaseService.getProject. run_js.
    rewrite Hrun. cbn. rewrite (supabase_from_resolved c w1) by done.
    fold (getProject_query id).
    destruct (projects_one store (getProject_query id)) as [row|error]; [done|].
    by destruct (String.eqb (code error) "PGRST116"). }
  assert (Htask :
    fst (SupabaseService.getTask store id w)
    = match tasks_one store (getTask_query id) with
      | PgData row => Ret (Some row)
      | PgError _ => Ret None
      end).
  { unfold SupabaseService.getTask. run_js.
    rewrite Hrun. cbn. rewrite (supabase_from_resolved c w1) by done.
    fold (getTask_query id).
    destruct (tasks_one store (getTask_query id)) as [row|error]; [done|].
    by destruct (String.eqb (code error) "PGRST116"). }
  rewrite Hproject, Htask. clear Hproject Htask.
  split; [by intros row ->|].
  split.
  { destruct (projects_one store (getProject_query id)) as [row|error].
    - split; [done|]. by intros (error & ? & _).
    - destruct (String.eqb (code error) "PGRST116") eqn:Hcode.
      + apply String.eqb_eq in Hcode. split; [|done]. intros _. by exists error.
      + apply String.eqb_neq in Hcode. split; [done|].
        intros (error' & [= <-] & ?). done. }
  split.
  { intros error -> Hcode. apply String.eqb_neq in Hcode. by rewrite Hcode. }
  split; [by intros row ->|].
  split.
  { destruct (tasks_one store (getTask_query id)) as [row|error].
    - split; [done|]. by intros (error & ?).
    - split; [|done]. intros _. by exists error. }
  intros e. by destruct (tasks_one store (getTask_query id)).
Qed.

End ById.

Section ByIdAtWork.

#[local] Existing Instance Sample.supabase_js.

(** A store at fault in a configured tab: [getTask] is [null],
    [getProject] throws the fault. *)
Lemma get_by_id_faults_witness :
  fst (SupabaseService.getTask Sample.faulty 5 Sample.online) = Ret None
  /\ fst (SupabaseService.getProject Sample.faulty 5 Sample.online)
     = Throw (StoreFault Sample.fault).
Proof.
  destruct (get_by_id_faults Sample.faulty Sample.client Sample.online 5
              online_configured)
    as (_ & _ & Hthrow & _ & Htask & _).
  split.
  - apply Htask. exists Sample.fault. reflexivity.
  - apply (Hthrow Sample.fault eq_refl). discriminate.
Defined.

(** C5, as the claim states it, fails for [getTask]: a fault other than
    row-not-found does not reach the caller, [null] is returned. *)
Lemma getTask_swallows_faults :
  tasks_one Sample.faulty (getTask_query 1) = PgError Sample.fault
  /\ fst (SupabaseService.getTask Sample.faulty 1 Sample.online) = Ret None
  /\ ~ getTask_propagates Sample.faulty.
Proof.
  split; [reflexivity|]. split; [reflexivity|].
  intros Hthrows.
  specialize (Hthrows Sample.online Sample.client 1 Sample.fault eq_refl eq_refl).
  assert (Hcode : code Sample.fault <> "PGRST116") by discriminate.
  specialize (Hthrows Hcode). vm_compute in Hthrows. discriminate Hthrows.
Qed.

End ByIdAtWork.

(** ** The backend forwarding endpoint *)

Section Forwarding.

Variable load_env : gmap string string.
Variable net : Request -> FetchResult.



End Forwarding.


(** ** The store's answers *)

Section StoreContract.

Context {A : Type} (column : string -> A -> JsValue).

Lemma before_total c ascending : Total (Postgrest.before column c ascending).
Proof. intros a b. unfold Postgrest.before. destruct ascending; lia. Qed.

Lemma before_transitive c ascending :
  Transitive (Postgrest.before column c ascending).
Proof. intros a b d. unfold Postgrest.before. destruct ascending; lia. Qed.

Lemma rows_between_sublist (start stop : Z) (l : list A) :
  Postgrest.rows_between start stop l `sublist_of` l.
Proof.
  unfold Postgrest.rows_between.
  etrans; [apply sublist_take | apply sublist_drop].
Qed.

Lemma in_range_sublist (r : option (Z * Z)) (l : list A) :
  Postgrest.in_range r l `sublist_of` l.
Proof. destruct r as [[start stop]|]; [apply rows_between_sublist | done]. Qed.

Lemma StronglySorted_sublist (R : relation A) (l k : list A) :
  l `sublist_of` k -> StronglySorted R k -> StronglySorted R l.
Proof.
  induction 1 as [|x l k Hsub IH|x l k Hsub IH]; intros Hk; [done| |].
  - apply StronglySorted_inv in Hk as [Hk Hx]. constructor; [by apply IH|].
    eapply Forall_forall. intros y Hy. eapply Forall_forall in Hx; [done|].
    by eapply elem_of_sublist.
  - apply StronglySorted_inv in Hk as [Hk _]. by apply IH.
Qed.

Lemma in_order_permutation (o : option (string * bool)) (l : list A) :
  Postgrest.in_order column o l ≡ₚ l.
Proof. destruct o as [[c asc]|]; [apply merge_sort_Permutation | done]. Qed.

Lemma in_order_sorted (c : string) (ascending : bool) (l : list A) :
  StronglySorted (Postgrest.before column c ascending)
                 (Postgrest.in_order column (Some (c, ascending)) l).
Proof.
  apply StronglySorted_merge_sort;
    [apply before_transitive | apply before_total].
Qed.

(** For a range that starts at a row that exists or could, the rows
    between are a [take] of a [drop]. *)
Lemma rows_between_take_drop (start count : Z) (l : list A) :
  (0 <= start)%Z -> (0 <= count)%Z ->
  Postgrest.rows_between start (start + count - 1) l
  = take (Z.to_nat count) (drop (Z.to_nat start) l).
Proof.
  intros Hs Hc. unfold Postgrest.rows_between. f_equal. lia.
Qed.

(** The row at position [i] of the range is the row at position
    [start + i] of the listing, as long as that is not past [stop]. *)
Lemma rows_between_lookup (start stop : Z) (l : list A) (i : nat) :
  (0 <= start)%Z ->
  Postgrest.rows_between start stop l !! i
  = if decide (start + Z.of_nat i <= stop)%Z
    then l !! (Z.to_nat start + i)%nat
    else None.
Proof.
  intros Hs. unfold Postgrest.rows_between.
  case_decide.
  - rewrite lookup_take_lt by lia. by rewrite lookup_drop.
  - apply lookup_take_ge. lia.
Qed.

End StoreContract.

(** ** The data access layer in configured mode: listings *)

Section Listings.

Context `{SupabaseJs}.
Variable store : RemoteStore.

Lemma or_num_of_nat (n : nat) : or_num (Some (Z.of_nat n)) 0 = Z.of_nat n.
Proof.
  unfold or_num, truthy_num. destruct (Z.eqb_spec (Z.of_nat n) 0) as [->|]; done.
Qed.

Lemma count_status_filter (s : string) (ts : list TaskStatus) :
  Z.of_nat (List.length (filter (fun t => ts_status t = Some s) ts))
  = count_status s ts.
Proof.
  induction ts as [|t ts IH]; [done|].
  cbn [count_status]. rewrite filter_cons.
  destruct (decide (ts_status t = Some s)) as [Hs|Hs].
  - rewrite bool_decide_eq_true_2 by done. cbn [List.length]. lia.
  - rewrite bool_decide_eq_false_2 by done. lia.
Qed.

Lemma withStats_counted (p : ProjectWithTasks) :
  counted (SupabaseService.withStats p).
Proof.
  unfold counted, children_of, SupabaseService.withStats. cbn.
  destruct (pt_tasks p) as [ts|]; cbn; [|done].
  by rewrite !or_num_of_nat, !count_status_filter.
Qed.

(** The claim's sample project: three tasks, two completed, one running. *)
Example withStats_three_tasks :
  SupabaseService.withStats Sample.project
  = mkProjectWithStats Sample.project 3 2 1.
Proof. reflexivity. Qed.

Lemma getProjects_configured (c : SupabaseClient) (w : World) :
  configured c w ->
  exists w1,
    queried w1 = queried w
    /\ SupabaseService.getProjects store w
       = match projects_many store listProjects_query with
         | PgData data =>
             (Ret (default [] (map SupabaseService.withStats <$> data)),
              set_queried (queried w1 ++ [listProjects_query]) w1)
         | PgError error =>
             (Ret [],
              set_console
                (console w1 ++ [(LWarn, [AStr "Error loading projects:";
                                         AExn (StoreFault error)])])
                (set_queried (queried w1 ++ [listProjects_query]) w1))
         end.
Proof.
  intros Hmode.
  destruct (supabase_configured c w Hmode) as (w1 & Hrun & Hinit & Hc & _ & _ & Hq).
  exists w1. split; [done|].
  unfold SupabaseService.getProjects. run_js.
  rewrite Hrun. cbn. rewrite (supabase_from_resolved c w1) by done.
  fold listProjects_query.
  by destruct (projects_many store listProjects_query).
Qed.

Lemma getTasks_configured (c : SupabaseClient) (w : World) projectId options :
  configured c w ->
  exists w1,
    queried w1 = queried w
    /\ SupabaseService.getTasks store projectId options w
       = match tasks_many store (listTasks_query projectId options) with
         | PgData data =>
             (Ret (default [] data),
              set_queried (queried w1 ++ [listTasks_query projectId options]) w1)
         | PgError error =>
             (Ret [],
              set_console
                (console w1 ++ [(LWarn, [AStr "Error loading tasks:";
                                         AExn (StoreFault error)])])
                (set_queried (queried w1 ++ [listTasks_query projectId options]) w1))
         end.
Proof.
  intros Hmode.
  destruct (supabase_configured c w Hmode) as (w1 & Hrun & Hinit & Hc & _ & _ & Hq).
  exists w1. split; [done|].
  unfold SupabaseService.getTasks. run_js.
  rewrite Hrun. cbn. rewrite (supabase_from_resolved c w1) by done.
  fold (listTasks_query projectId options).
  by destruct (tasks_many store (listTasks_query projectId options)).
Qed.

Lemma filter_all {B} (P : B -> Prop) `{forall x, Decision (P x)} (l : list B) :
  (forall x, P x) -> filter P l = l.
Proof.
  intros HP. induction l as [|x l IH]; [done|].
  rewrite filter_cons_True by done. by rewrite IH.
Qed.

Lemma sorted_withStats (rows : list ProjectWithTasks) :
  StronglySorted (newest_first project_created) rows ->
  StronglySorted (newest_first stats_created) (map SupabaseService.withStats rows).
Proof.
  induction 1 as [|p rows Hsorted IH Hp]; [constructor|].
  cbn [map]. constructor; [done|].
  apply Forall_forall. intros q [p' [-> Hin]]%list_elem_of_fmap.
  eapply Forall_forall in Hp; [|done]. done.
Qed.

(** C7.  In configured mode, when the store answers the projects query
    with rows, [getProjects] returns those rows in the store's order, each
    with [task_count] the number of its child tasks, [completed_tasks]
    the number of them whose status is "completed" and [active_tasks] the
    number whose status is "running".  The one query it sends asks for
    [created_at] descending, so the listing is newest first whenever the
    store's answer is, and it is when the store reads the query as
    PostgREST does: then the listing holds every project of the table,
    newest first. *)
Theorem getProjects_counts_newest_first (c : SupabaseClient) (w : World)
  (rows : list ProjectWithTasks) :
  configured c w ->
  projects_many store listProjects_query = PgData (Some rows) ->
  exists listed,
    fst (SupabaseService.getProjects store w) = Ret listed
    /\ queried (snd (SupabaseService.getProjects store w))
       = (queried w ++ [listProjects_query])%list
    /\ order listProjects_query = Some ("created_at", false)
    /\ map project listed = rows
    /\ Forall counted listed
    /\ (StronglySorted (newest_first project_created) rows ->
        StronglySorted (newest_first stats_created) listed)
    /\ (forall table,
          rows = Postgrest.select_rows Postgrest.project_column table listProjects_query ->
          map project listed ≡ₚ table
          /\ StronglySorted (newest_first stats_created) listed).
Proof.
  intros Hmode Hrows.
  destruct (getProjects_configured c w Hmode) as (w1 & Hq & Hrun).
  rewrite Hrun, Hrows. cbn [fst snd default fmap option_fmap option_map].
  exists (map SupabaseService.withStats rows).
  assert (Hmap : map project (map SupabaseService.withStats rows) = rows).
  { rewrite map_map. cbn. apply map_id. }
  split; [done|]. split; [by cbn; rewrite Hq|]. split; [done|].
  split; [done|].
  split. { apply Forall_forall. intros p [p' [-> _]]%list_elem_of_fmap.
           apply withStats_counted. }
  split; [apply sorted_withStats|].
  intros table ->. rewrite Hmap. split.
  - unfold Postgrest.select_rows. cbn [range order listProjects_query with_order
      select from Postgrest.in_range filters].
    rewrite in_order_permutation. 
    rewrite filter_all; [done|].
    intros p. unfold Postgrest.passes. cbn. constructor.
  - apply sorted_withStats.
    unfold Postgrest.select_rows. cbn [range order listProjects_query with_order
      select from Postgrest.in_range].
    apply (in_order_sorted Postgrest.project_column "created_at" false).
Qed.


Lemma or_num_default (o : option Z) : or_num o 0 = default 0 o.
Proof.
  unfold or_num, truthy_num. destruct o as [z|]; [|done].
  by destruct (Z.eqb_spec z 0) as [->|].
Qed.

Lemma listTasks_query_parts projectId options :
  filters (listTasks_query projectId options)
  = (if truthy_num projectId
     then [("project_id", JNum (default 0 projectId))] else [])
  /\ range (listTasks_query projectId options)
     = (if truthy_num (options ≫= SupabaseService.limit)
        then Some (default 0 (options ≫= SupabaseService.offset),
                   default 0 (options ≫= SupabaseService.offset)
                   + default 0 (options ≫= SupabaseService.limit) - 1)
        else None)
  /\ order (listTasks_query projectId options) = Some ("created_at", false).
Proof.
  unfold listTasks_query, SupabaseService.tasksQuery.
  rewrite or_num_default.
  by destruct (truthy_num projectId),
              (truthy_num (options ≫= SupabaseService.limit)).
Qed.

Lemma passes_of_project projectId options (t : Task) :
  Postgrest.passes Postgrest.task_column (listTasks_query projectId options) t
  <-> of_project projectId t.
Proof.
  unfold Postgrest.passes, of_project.
  destruct (listTasks_query_parts projectId options) as (-> & _).
  destruct (truthy_num projectId) eqn:Hp.
  - destruct projectId as [p|]; [|done]. cbn.
    rewrite Forall_singleton. cbn.
    destruct (t_project_id (task_row t)) as [z|]; cbn.
    + rewrite Z.eqb_eq. naive_solver.
    + naive_solver.
  - split; [done|]. intros _. constructor.
Qed.

Lemma page_in_range {B} projectId options (l : list B) :
  Postgrest.in_range (range (listTasks_query projectId options)) l
  = page options l.
Proof.
  destruct (listTasks_query_parts projectId options) as (_ & -> & _).
  unfold page. by destruct (truthy_num (options ≫= SupabaseService.limit)).
Qed.

(** In configured mode [getTasks] sends its query and no other. *)
Lemma getTasks_sends (c : SupabaseClient) (w : World) projectId options :
  configured c w ->
  queried (snd (SupabaseService.getTasks store projectId options w))
  = (queried w ++ [listTasks_query projectId options])%list.
Proof.
  intros Hmode.
  destruct (getTasks_configured c w projectId options Hmode) as (w1 & Hq & ->).
  destruct (tasks_many store (listTasks_query projectId options));
    cbn; by rewrite Hq.
Qed.

(** C8.  In configured mode [getTasks] sends one query: on [tasks],
    filtered on [project_id] when a project is given, with the inclusive
    range [offset, offset + limit - 1] when a limit is given (the offset 0
    when absent), ordered by [created_at] descending.  A fault of the
    store gives the empty list and is not thrown; rows are returned as
    they came.  When the store reads the query as PostgREST does, the
    result is that page of the project's tasks, newest first. *)
Theorem getTasks_filtered_paged_newest_first (c : SupabaseClient) (w : World)
  (projectId : option Z) (options : option SupabaseService.TaskOptions) :
  configured c w ->
  queried (snd (SupabaseService.getTasks store projectId options w))
  = (queried w ++ [listTasks_query projectId options])%list
  /\ filters (listTasks_query projectId options)
     = (if truthy_num projectId
        then [("project_id", JNum (default 0 projectId))] else [])
  /\ range (listTasks_query projectId options)
     = (if truthy_num (options ≫= SupabaseService.limit)
        then Some (default 0 (options ≫= SupabaseService.offset),
                   default 0 (options ≫= SupabaseService.offset)
                   + default 0 (options ≫= SupabaseService.limit) - 1)
        else None)
  /\ order (listTasks_query projectId options) = Some ("created_at", false)
  /\ (forall error,
        tasks_many store (listTasks_query projectId options) = PgError error ->
        fst (SupabaseService.getTasks store projectId options w) = Ret [])
  /\ (forall data,
        tasks_many store (listTasks_query projectId options) = PgData data ->
        fst (SupabaseService.getTasks store projectId options w)
        = Ret (default [] data))
  /\ (forall table,
        tasks_many store (listTasks_query projectId options)
        = PgData (Some (Postgrest.select_rows Postgrest.task_column table
                          (listTasks_query projectId options))) ->
        exists all,
          all ≡ₚ filter (of_project projectId) table
          /\ StronglySorted (newest_first task_created) all
          /\ fst (SupabaseService.getTasks store projectId options w)
             = Ret (page options all)
          /\ StronglySorted (newest_first task_created) (page options all)).
Proof.
  intros Hmode.
  destruct (getTasks_configured c w projectId options Hmode) as (w1 & Hq & Hrun).
  destruct (listTasks_query_parts projectId options) as (Hfilters & Hrange & Horder).
  split; [by apply (getTasks_sends c)|].
  rewrite Hrun. clear Hrun.
  split; [done|]. split; [done|]. split; [done|].
  split; [by intros error ->|]. split; [by intros data ->|].
  intros table ->. cbn [fst default].
  set (q := listTasks_query projectId options).
  set (all := Postgrest.in_order Postgrest.task_column (order q)
                (filter (Postgrest.passes Postgrest.task_column q) table)).
  assert (Hsorted : StronglySorted (newest_first task_created) all).
  { subst all q. rewrite Horder.
    apply (in_order_sorted Postgrest.task_column "created_at" false). }
  exists all. split; [|split; [done|split]].
  - subst all. rewrite in_order_permutation.
    by rewrite (list_filter_iff _ (of_project projectId))
      by (intros t; apply passes_of_project).
  - unfold Postgrest.select_rows. fold all. subst q. by rewrite page_in_range.
  - rewrite <- (page_in_range projectId options).
    eapply StronglySorted_sublist; [apply in_range_sublist | done].
Qed.

Lemma tasksQuery_without_limit (tasks : Query) projectId options :
  options ≫= SupabaseService.limit = None
  \/ options ≫= SupabaseService.limit = Some 0 ->
  SupabaseService.tasksQuery tasks projectId options
  = SupabaseService.tasksQuery tasks projectId None.
Proof. unfold SupabaseService.tasksQuery. by intros [-> | ->]. Qed.

(** C10.  The query of [getTasks] has a range exactly when a limit is
    given and is not 0.  With the limit absent or 0 the query is the one
    of a call without options, whatever the offset, and so is the whole
    call: same result, same world after.  In configured mode that call
    sends the range-free query and returns the rows the store answers to
    it, all of them; when the store reads the query as PostgREST does,
    these are all the tasks of the project, newest first, none cut off. *)
Theorem getTasks_unpaginated_without_limit (w : World) (projectId : option Z)
  (options : option SupabaseService.TaskOptions) :
  (range (listTasks_query projectId options) <> None <->
   exists l, options ≫= SupabaseService.limit = Some l /\ l <> 0)
  /\ (options ≫= SupabaseService.limit = None
      \/ options ≫= SupabaseService.limit = Some 0 ->
      listTasks_query projectId options = listTasks_query projectId None
      /\ SupabaseService.getTasks store projectId options w
         = SupabaseService.getTasks store projectId None w
      /\ forall c, configured c w ->
           queried (snd (SupabaseService.getTasks store projectId options w))
           = (queried w ++ [listTasks_query projectId None])%list
           /\ range (listTasks_query projectId None) = None
           /\ (forall data,
                 tasks_many store (listTasks_query projectId None) = PgData data ->
                 fst (SupabaseService.getTasks store projectId options w)
                 = Ret (default [] data))
           /\ (forall table,
                 tasks_many store (listTasks_query projectId None)
                 = PgData (Some (Postgrest.select_rows Postgrest.task_column table
                                   (listTasks_query projectId None))) ->
                 exists all,
                   all ≡ₚ filter (of_project projectId) table
                   /\ StronglySorted (newest_first task_created) all
                   /\ fst (SupabaseService.getTasks store projectId options w)
                      = Ret all))
  /\ (forall c, configured c w ->
        queried (snd (SupabaseService.getTasks store projectId options w))
        = (queried w ++ [listTasks_query projectId options])%list).
Proof.
  split; [|split].
  - destruct (listTasks_query_parts projectId options) as (_ & -> & _).
    unfold truthy_num.
    destruct (options ≫= SupabaseService.limit) as [l|]; cbn.
    + destruct (Z.eqb_spec l 0) as [->|Hl]; cbn.
      * split; [done|]. by intros (l & [= <-] & Hl).
      * split; [|done]. intros _. by exists l.
    + split; [done|]. by intros (l & [=] & _).
  - intros Hlimit.
    assert (Hquery : listTasks_query projectId options
                     = listTasks_query projectId None)
      by by apply tasksQuery_without_limit.
    split; [done|]. split.
    { unfold SupabaseService.getTasks. run_js.
      destruct (SupabaseService.supabase w) as [[[cl|]|e] w1]; cbn; try done.
      destruct (SupabaseService.supabase_from "tasks" Select w1) as [[q|e] w2];
        cbn; [|done].
      by rewrite (tasksQuery_without_limit q projectId options). }
    intros c Hmode.
    destruct (getTasks_configured c w projectId options Hmode) as (w1 & Hq & Hrun).
    destruct (listTasks_query_parts projectId None) as (_ & Hrange & Horder).
    rewrite Hquery in Hrun.
    split; [by rewrite (getTasks_sends c), Hquery|].
    split; [done|]. rewrite Hrun. clear Hrun.
    split; [by intros data ->|].
    intros table ->. cbn [fst default].
    set (q := listTasks_query projectId None).
    exists (Postgrest.in_order Postgrest.task_column (order q)
              (filter (Postgrest.passes Postgrest.task_column q) table)).
    split; [|split].
    + rewrite in_order_permutation.
      by rewrite (list_filter_iff _ (of_project projectId))
        by (intros t; apply passes_of_project).
    + subst q. rewrite Horder.
      apply (in_order_sorted Postgrest.task_column "created_at" false).
    + unfold Postgrest.select_rows. subst q. by rewrite Hrange.
  - intros c Hmode. by apply (getTasks_sends c).
Qed.

End Listings.

Section ListingsAtWork.

#[local] Existing Instance Sample.supabase_js.

(** The claim's own case: one project with three tasks, two completed
    and one running, is listed with the counters 3, 2 and 1. *)
Lemma getProjects_counts_newest_first_witness :
  exists p,
    fst (SupabaseService.getProjects Sample.serving Sample.online) = Ret [p]
    /\ project p = Sample.project
    /\ task_count p = 3 /\ completed_tasks p = 2 /\ active_tasks p = 1.
Proof.
  destruct (getProjects_counts_newest_first Sample.serving Sample.client
              Sample.online [Sample.project] online_configured eq_refl)
    as (listed & Hrun & _ & _ & Hmap & Hcounted & _).
  destruct listed as [|p [|p' listed]]; try discriminate Hmap.
  injection Hmap as Hp. exists p.
  apply Forall_inv in Hcounted. destruct Hcounted as (Hn & Hc & Ha).
  unfold children_of in Hn, Hc, Ha. rewrite Hp in Hn, Hc, Ha.
  split; [exact Hrun|]. split; [exact Hp|]. split; [exact Hn|].
  split; [exact Hc | exact Ha].
Defined.

(** Four tasks, three of them of project 7: the second page of size 2,
    starting at row 1, holds the two older ones, newest first. *)
Lemma getTasks_filtered_paged_newest_first_witness :
  fst (SupabaseService.getTasks Sample.serving (Some 7)
         (Some (SupabaseService.mkTaskOptions (Some 2) (Some 1))) Sample.online)
  = Ret [Sample.task 4 7 20; Sample.task 1 7 10].
Proof.
  destruct (getTasks_filtered_paged_newest_first Sample.serving Sample.client
              Sample.online (Some 7)
              (Some (SupabaseService.mkTaskOptions (Some 2) (Some 1)))
              online_configured)
    as (_ & _ & _ & _ & _ & Hrows & _).
  exact (Hrows (Some [Sample.task 4 7 20; Sample.task 1 7 10]) eq_refl).
Defined.

(** A limit of 0 with an offset of 5: the call is the call without
    options, and it returns the three tasks of project 7, all of them,
    newest first. *)
Lemma getTasks_unpaginated_without_limit_witness :
  SupabaseService.getTasks Sample.serving (Some 7)
    (Some (SupabaseService.mkTaskOptions (Some 0) (Some 5))) Sample.online
  = SupabaseService.getTasks Sample.serving (Some 7) None Sample.online
  /\ fst (SupabaseService.getTasks Sample.serving (Some 7)
            (Some (SupabaseService.mkTaskOptions (Some 0) (Some 5))) Sample.online)
     = Ret [Sample.task 3 7 30; Sample.task 4 7 20; Sample.task 1 7 10].
Proof.
  destruct (getTasks_unpaginated_without_limit Sample.serving Sample.online
              (Some 7) (Some (SupabaseService.mkTaskOptions (Some 0) (Some 5))))
    as (_ & Hsame & _).
  destruct (Hsame (or_intror eq_refl)) as (_ & Hcall & Hrows).
  split; [exact Hcall|].
  destruct (Hrows Sample.client online_configured) as (_ & _ & Hdata & _).
  exact (Hdata (Some [Sample.task 3 7 30; Sample.task 4 7 20; Sample.task 1 7 10])
           eq_refl).
Defined.

End ListingsAtWork.

(** * Further properties *)

(** ** The session manager: issuing and keeping the token *)

Section Issuing.

Variable load_env : gmap string string.
Variable backend : Request -> AuthService.AuthAnswer.

(** Storing a token: the mirror holds it, the durable slot holds it when
    there is a store, nothing is sent. *)
Lemma setToken_stores (t : string) (w : World) :
  exists w',
    AuthService.setToken t w = (Ret tt, w')
    /\ token w' = Some t
    /\ (is_Some (localStorage w) -> durable_token w' = Some t)
    /\ (localStorage w = None -> localStorage w' = None)
    /\ fetched w' = fetched w /\ queried w' = queried w
    /\ supabaseInitialized w' = supabaseInitialized w
    /\ supabaseInstance w' = supabaseInstance w /\ env w' = env w.
Proof.
  unfold AuthService.setToken, durable_token. run_js.
  destruct w as [e [ls|] c i b t' f q]; cbn; eexists; repeat split; try done.
  intros _. cbn. apply lookup_insert_eq.
Qed.

Lemma login_run (email password : string) (w : World) :
  AuthService.login load_env backend email password w
  = match backend (login_request load_env email password) with
    | AuthService.Unreachable e =>
        (Throw e, set_fetched (fetched w ++ [login_request load_env email password]) w)
    | AuthService.Answered (AuthService.Refused (inl e)) =>
        (Throw e, set_fetched (fetched w ++ [login_request load_env email password]) w)
    | AuthService.Answered (AuthService.Refused (inr error)) =>
        (match get_prop error "error" with
         | inl e => Throw e
         | inr m => Throw (JsError (js_String (or_value m (JStr "Login failed"))))
         end,
         set_fetched (fetched w ++ [login_request load_env email password]) w)
    | AuthService.Answered (AuthService.Granted (inl e)) =>
        (Throw e, set_fetched (fetched w ++ [login_request load_env email password]) w)
    | AuthService.Answered (AuthService.Granted (inr data)) =>
        (Ret data,
         snd (AuthService.setToken (AuthService.data_token data)
                (set_fetched (fetched w ++ [login_request load_env email password]) w)))
    end.
Proof.
  unfold AuthService.login, AuthService.fetch_auth. run_js.
  fold (login_request load_env email password).
  destruct (backend (login_request load_env email password)) as [e|[[e|error]|[e|data]]];
    try done.
  - by destruct (get_prop error "error").
  - destruct (setToken_stores (AuthService.data_token data)
                (set_fetched (fetched w ++ [login_request load_env email password]) w))
      as (w' & Hrun & _).
    by rewrite Hrun.
Qed.


Lemma register_run (email password : string) (full_name : option string) (w : World) :
  AuthService.register load_env backend email password full_name w
  = match backend (register_request load_env email password full_name) with
    | AuthService.Unreachable e =>
        (Throw e,
         set_fetched (fetched w ++ [register_request load_env email password full_name]) w)
    | AuthService.Answered (AuthService.Refused (inl e)) =>
        (Throw e,
         set_fetched (fetched w ++ [register_request load_env email password full_name]) w)
    | AuthService.Answered (AuthService.Refused (inr error)) =>
        (match get_prop error "error" with
         | inl e => Throw e
         | inr m => Throw (JsError (js_String (or_value m (JStr "Registration failed"))))
         end,
         set_fetched (fetched w ++ [register_request load_env email password full_name]) w)
    | AuthService.Answered (AuthService.Granted (inl e)) =>
        (Throw e,
         set_fetched (fetched w ++ [register_request load_env email password full_name]) w)
    | AuthService.Answered (AuthService.Granted (inr data)) =>
        (Ret data,
         snd (AuthService.setToken (AuthService.data_token data)
                (set_fetched
                   (fetched w ++ [register_request load_env email password full_name]) w)))
    end.
Proof.
  unfold AuthService.register, AuthService.fetch_auth. run_js.
  fold (register_request load_env email password full_name).
  destruct (backend (register_request load_env email password full_name))
    as [e|[[e|error]|[e|data]]]; try done.
  - by destruct (get_prop error "error").
  - destruct (setToken_stores (AuthService.data_token data)
                (set_fetched
                   (fetched w ++ [register_request load_env email password full_name]) w))
      as (w' & Hrun & _).
    by rewrite Hrun.
Qed.

(** X1.  A granted login or registration returns the backend's answer
    with the issued token written through: the in-memory token is the
    issued one, and so is the durable slot when there is a store.  One
    request has been sent. *)
Theorem granted_token_written_through (email password : string)
  (full_name : option string) (data : AuthService.AuthResponse) (w : World) :
  (grants (backend (login_request load_env email password)) data ->
   exists w',
     AuthService.login load_env backend email password w = (Ret data, w')
     /\ token w' = Some (AuthService.data_token data)
     /\ (is_Some (localStorage w) ->
         durable_token w' = Some (AuthService.data_token data))
     /\ fetched w' = (fetched w ++ [login_request load_env email password])%list)
  /\ (grants (backend (register_request load_env email password full_name)) data ->
      exists w',
        AuthService.register load_env backend email password full_name w
        = (Ret data, w')
        /\ token w' = Some (AuthService.data_token data)
        /\ (is_Some (localStorage w) ->
            durable_token w' = Some (AuthService.data_token data))
        /\ fetched w' = (fetched w ++ [register_request load_env email password full_name])%list).
Proof.
  unfold grants. split; intros Hgrant.
  - rewrite login_run, Hgrant.
    destruct (setToken_stores (AuthService.data_token data)
                (set_fetched (fetched w ++ [login_request load_env email password]) w))
      as (w' & -> & Htoken & Hstore & _ & Hsent & _).
    exists w'. by repeat split.
  - rewrite register_run, Hgrant.
    destruct (setToken_stores (AuthService.data_token data)
                (set_fetched
                   (fetched w ++ [register_request load_env email password full_name]) w))
      as (w' & -> & Htoken & Hstore & _ & Hsent & _).
    exists w'. by repeat split.
Qed.

(** X2.  A login or registration that is not granted throws and leaves
    the session as it was: the in-memory token and the durable store are
    unchanged. *)
Theorem ungranted_leaves_session (email password : string)
  (full_name : option string) (w : World) :
  ((forall data, ~ grants (backend (login_request load_env email password)) data) ->
   exists e w',
     AuthService.login load_env backend email password w = (Throw e, w')
     /\ token w' = token w /\ localStorage w' = localStorage w)
  /\ ((forall data,
         ~ grants (backend (register_request load_env email password full_name)) data) ->
      exists e w',
        AuthService.register load_env backend email password full_name w
        = (Throw e, w')
        /\ token w' = token w /\ localStorage w' = localStorage w).
Proof.
  unfold grants. split; intros Hnot.
  - rewrite login_run.
    destruct (backend (login_request load_env email password))
      as [e|[[e|error]|[e|data]]]; try by eexists _, _.
    + destruct (get_prop error "error"); by eexists _, _.
    + by destruct (Hnot data).
  - rewrite register_run.
    destruct (backend (register_request load_env email password full_name))
      as [e|[[e|error]|[e|data]]]; try by eexists _, _.
    + destruct (get_prop error "error"); by eexists _, _.
    + by destruct (Hnot data).
Qed.

(** X3.  The error of a refused login carries the backend's [error]
    string when it is not empty, and "Login failed" when the backend's
    body has no truthy [error]; for a registration the default is
    "Registration failed". *)
Theorem refusal_message (email password : string) (full_name : option string)
  (error : JsValue) (w : World) :
  (backend (login_request load_env email password)
   = AuthService.Answered (AuthService.Refused (inr error)) ->
   (forall s, get_prop error "error" = inr (JStr s) -> s <> EmptyString ->
      fst (AuthService.login load_env backend email password w) = Throw (JsError s))
   /\ (forall m, get_prop error "error" = inr m -> truthy m = false ->
         fst (AuthService.login load_env backend email password w)
         = Throw (JsError "Login failed")))
  /\ (backend (register_request load_env email password full_name)
      = AuthService.Answered (AuthService.Refused (inr error)) ->
      (forall s, get_prop error "error" = inr (JStr s) -> s <> EmptyString ->
         fst (AuthService.register load_env backend email password full_name w)
         = Throw (JsError s))
      /\ (forall m, get_prop error "error" = inr m -> truthy m = false ->
            fst (AuthService.register load_env backend email password full_name w)
            = Throw (JsError "Registration failed"))).
Proof.
  assert (Hstr : forall s d, s <> EmptyString -> js_String (or_value (JStr s) d) = s).
  { intros s d Hs. unfold or_value. cbn.
    destruct (String.eqb_spec s EmptyString); done. }
  split; intros Hrefused.
  - rewrite login_run, Hrefused. split.
    + intros s -> Hs. cbn. by rewrite Hstr.
    + intros m -> Hm. cbn. unfold or_value. by rewrite Hm.
  - rewrite register_run, Hrefused. split.
    + intros s -> Hs. cbn. by rewrite Hstr.
    + intros m -> Hm. cbn. unfold or_value. by rewrite Hm.
Qed.

End Issuing.

Section Keeping.

Variable load_env : gmap string string.
Variable net : Request -> FetchResult.
Variable backend : Request -> AuthService.AuthAnswer.

(** What [getCurrentUser] does to the session: nothing at all without a
    held token; with one, it sends the probe and either keeps the session
    or purges it. *)
Lemma getCurrentUser_session (w : World) :
  exists v w',
    AuthService.getCurrentUser load_env net w = (Ret v, w')
    /\ (truthy_str (token w) = false -> v = JNull /\ w' = w)
    /\ (forall t, token w = Some t -> truthy_str (Some t) = true ->
          fetched w' = (fetched w ++ [probe load_env t])%list)
    /\ ((token w' = token w /\ localStorage w' = localStorage w)
        \/ (token w' = None /\ durable_token w' = None)).
Proof.
  unfold AuthService.getCurrentUser. run_js.
  destruct (truthy_str (token w)) eqn:Hheld; cbn [negb].
  2:{ exists JNull, w. split; [done|]. split; [done|]. split; [|by left].
      intros t Ht Ht'. rewrite Ht in Hheld. congruence. }
  destruct (token w) as [t|] eqn:Ht; [|done].
  change (interpolate (Some t)) with t. fold (probe load_env t).
  destruct (net (probe load_env t)) as [e|r];
    [|destruct (ok r); cbn [negb];
      [destruct (json r) as [e|data];
       [|destruct (get_prop data "user") as [e|u]]|]];
    try (match goal with
         | |- context [AuthService.clearToken ?W] =>
             let w' := fresh "w'" in
             let Hsent := fresh "Hsent" in
             destruct (clearToken_purges W) as (w' & -> & ? & ? & Hsent);
             cbn in Hsent; exists JNull, w';
             split; [done|]; split; [done|]; split; [|by right];
             intros ? [= <-] _; congruence
         end).
  eexists u, _. split; [done|]. split; [done|]. split; [|by left].
  by intros ? [= <-] _.
Qed.

(** X4.  After a granted login the next [getCurrentUser] probes with the
    token just issued, provided that token is not the empty string; an
    empty issued token counts as no token, and the call returns [null]
    without a probe. *)
Theorem login_then_probe (email password : string)
  (data : AuthService.AuthResponse) (w : World) :
  grants (backend (login_request load_env email password)) data ->
  let w1 := snd (AuthService.login load_env backend email password w) in
  (AuthService.data_token data <> EmptyString ->
   fetched (snd (AuthService.getCurrentUser load_env net w1))
   = (fetched w ++ [login_request load_env email password;
                    probe load_env (AuthService.data_token data)])%list)
  /\ (AuthService.data_token data = EmptyString ->
      AuthService.getCurrentUser load_env net w1 = (Ret JNull, w1)).
Proof.
  intros Hgrant w1. subst w1. unfold grants in Hgrant.
  rewrite login_run, Hgrant. cbn [snd].
  destruct (setToken_stores (AuthService.data_token data)
              (set_fetched (fetched w ++ [login_request load_env email password]) w))
    as (w1 & -> & Htoken & _ & _ & Hsent & _).
  cbn [snd]. cbn in Hsent.
  destruct (getCurrentUser_session w1) as (v & w2 & Hrun & Hnone & Hheld & _).
  rewrite Hrun. cbn [snd]. split.
  - intros Hne. rewrite (Hheld _ Htoken).
    + rewrite Hsent. by rewrite <- app_assoc.
    + cbn. by destruct (String.eqb_spec (AuthService.data_token data) EmptyString).
  - intros Hempty. destruct Hnone as [-> ->]; [|done].
    by rewrite Htoken, Hempty.
Qed.


End Keeping.

Section Reload.

Variable load_env : gmap string string.
Variable net : Request -> FetchResult.

(** X6.  A stored token survives a reload exactly when there is a durable
    store: a service constructed after [setToken t] holds [t] in a
    browser and nothing elsewhere, and one constructed after a clearing
    holds nothing. *)
Theorem token_survives_reload (t : string) (w : World) :
  (is_Some (localStorage w) ->
   token (snd (AuthService.constructor (snd (AuthService.setToken t w)))) = Some t)
  /\ (localStorage w = None ->
      token (snd (AuthService.constructor (snd (AuthService.setToken t w)))) = None)
  /\ token (snd (AuthService.constructor (snd (AuthService.clearToken w)))) = None.
Proof.
  unfold AuthService.constructor, AuthService.setToken, AuthService.clearToken.
  run_js. destruct w as [e [ls|] c i b t' f q]; cbn; repeat split; try done.
  - intros _. apply lookup_insert_eq.
  - apply lookup_delete_eq.
Qed.

(** X7.  Logout is idempotent and local: a second logout changes nothing,
    nothing is sent, and the next [getCurrentUser] returns [null] without
    a probe. *)
Theorem logout_idempotent (w : World) :
  let w1 := snd (AuthService.logout w) in
  AuthService.logout w1 = (Ret tt, w1)
  /\ fetched w1 = fetched w
  /\ AuthService.getCurrentUser load_env net w1 = (Ret JNull, w1).
Proof.
  unfold AuthService.logout, AuthService.clearToken, AuthService.getCurrentUser.
  run_js. destruct w as [e [ls|] c i b t' f q]; cbn; repeat split.
  unfold set_localStorage, set_token. cbn. by rewrite delete_delete_eq.
Qed.

End Reload.

(** ** The two resolvers side by side *)

Lemma resolutions_replicate (n : nat) : resolutions (replicate n Resolve) = n.
Proof. induction n as [|n IH]; [done|]. cbn. by rewrite IH. Qed.

Section SideBySide.

Context `{SupabaseJs}.

Lemma run_flag_fixed (n : nat) (w : World) :
  supabaseInitialized w = false ->
  fst (run Supabase.getSupabase (replicate n Resolve) w)
  = replicate n (from_env (env w)).
Proof.
  intros Hinit. induction n as [|n IH]; [done|].
  cbn [replicate run].
  pose proof (getSupabase_first_use w Hinit) as Hfirst.
  destruct (from_env (env w)) as [r|e] eqn:Henv.
  - destruct Hfirst as (w' & -> & Hinit' & Hinst & _).
    rewrite run_initialized by done. cbn.
    by rewrite resolutions_replicate, Hinst.
  - rewrite Hfirst.
    destruct (run Supabase.getSupabase (replicate n Resolve) w) as [rs w'].
    cbn in *. by rewrite IH.
Qed.

Lemma run_lazy_fixed (n : nat) (w : World) :
  supabaseInstance w = None \/ from_env (env w) = Ret (supabaseInstance w) ->
  fst (run SupabaseLazy.getSupabase (replicate n Resolve) w)
  = replicate n (from_env (env w)).
Proof.
  revert w. induction n as [|n IH]; intros w Hcell; [done|].
  cbn [replicate run].
  destruct (supabaseInstance w) as [c|] eqn:Hc.
  - destruct Hcell as [|Hcell]; [done|].
    rewrite (lazy_holding w c) by done.
    specialize (IH w). rewrite Hc in IH. specialize (IH (or_intror Hcell)).
    destruct (run SupabaseLazy.getSupabase (replicate n Resolve) w) as [rs w'].
    cbn in *. by rewrite IH, Hcell.
  - destruct (lazy_empty w Hc) as (Hrun & Henv & Hleft).
    destruct (SupabaseLazy.getSupabase w) as [o w'].
    cbn [fst snd] in *. subst o.
    specialize (IH w'). rewrite Henv in IH.
    destruct (run SupabaseLazy.getSupabase (replicate n Resolve) w') as [rs w''].
    cbn in *. rewrite IH; [done|].
    destruct (from_env (env w)) as [r|e]; [right; by rewrite Hleft|left].
    by rewrite Hleft.
Qed.

(** X8.  Under an environment that does not change, the two versions of
    the resolver behave alike: started with empty cells, every call of
    either gives what reading the environment gives, be it no client, the
    client, or the error [createClient] throws, which is then thrown again
    at every call. *)
Theorem resolvers_agree_under_fixed_environment (n : nat) (w : World) :
  supabaseInstance w = None -> supabaseInitialized w = false ->
  fst (run Supabase.getSupabase (replicate n Resolve) w)
  = replicate n (from_env (env w))
  /\ fst (run SupabaseLazy.getSupabase (replicate n Resolve) w)
     = replicate n (from_env (env w)).
Proof.
  intros Hcell Hflag. split; [by apply run_flag_fixed|].
  apply run_lazy_fixed. by left.
Qed.

End SideBySide.

(** ** The data access layer: the operations the listings leave out *)

Section OtherOperations.

Context `{SupabaseJs}.
Variable store : RemoteStore.

(** The getter is the resolver: it returns what the resolver returns,
    after a warning when that is [null], and throws what it throws. *)
Lemma supabase_run (w : World) :
  SupabaseService.supabase w
  = match Supabase.getSupabase w with
    | (Ret (Some c), w') => (Ret (Some c), w')
    | (Ret None, w') =>
        (Ret None,
         set_console
           (console w'
            ++ [(LWarn, [AStr "Supabase not configured - using local development mode"])])
           w')
    | (Throw e, w') => (Throw e, w')
    end.
Proof.
  unfold SupabaseService.supabase. run_js.
  by destruct (Supabase.getSupabase w) as [[[c|]|e] w'].
Qed.

Lemma supabase_auth_getUser_resolved (c : SupabaseClient) (w : World) :
  supabaseInitialized w = true -> supabaseInstance w = Some c ->
  SupabaseService.supabase_auth_getUser store w = (Ret (auth_getUser store), w).
Proof.
  intros Hinit Hc. unfold SupabaseService.supabase_auth_getUser. run_js.
  by rewrite (supabase_resolved c).
Qed.

(** X9.  In unconfigured mode the remaining reads give [null] and the
    remaining writes throw the local-mode error; none of them sends a
    query. *)
Theorem local_mode_other_operations (w : World) (id : Z)
  (updates : list (string * JsValue)) :
  unconfigured w ->
  let w1 := snd (SupabaseService.supabase w) in
  SupabaseService.getProject store id w = (Ret None, w1)
  /\ SupabaseService.getTask store id w = (Ret None, w1)
  /\ SupabaseService.getUserProfile store w = (Ret None, w1)
  /\ SupabaseService.updateProject store id updates w = (Throw StoreUnavailable, w1)
  /\ SupabaseService.deleteProject store id w = (Throw StoreUnavailable, w1)
  /\ queried w1 = queried w.
Proof.
  intros Hmode w1. subst w1.
  destruct (supabase_unconfigured w Hmode) as (w' & Hrun & _ & _ & Hq).
  unfold SupabaseService.getProject, SupabaseService.getTask,
    SupabaseService.getUserProfile, SupabaseService.updateProject,
    SupabaseService.deleteProject. run_js.
  rewrite Hrun. by cbn.
Qed.

(** X10.  The degrading reads throw what the mode resolver throws, and
    nothing else.  When the resolver returns, in either mode,
    [getProjects], [getTasks], [getTask] and [getUserProfile] return,
    whatever the store answers and whatever their arguments.  When the
    resolver throws, each of them throws the same error: the mode test
    stands before the [try]. *)
Theorem degrading_reads_throw_with_the_resolver_only (w : World) (id : Z)
  (projectId : option Z) (options : option SupabaseService.TaskOptions) :
  (returns (Supabase.getSupabase w) ->
   returns (SupabaseService.getProjects store w)
   /\ returns (SupabaseService.getTasks store projectId options w)
   /\ returns (SupabaseService.getTask store id w)
   /\ returns (SupabaseService.getUserProfile store w))
  /\ (forall e, fst (Supabase.getSupabase w) = Throw e ->
        fst (SupabaseService.getProjects store w) = Throw e
        /\ fst (SupabaseService.getTasks store projectId options w) = Throw e
        /\ fst (SupabaseService.getTask store id w) = Throw e
        /\ fst (SupabaseService.getUserProfile store w) = Throw e).
Proof.
  unfold returns, SupabaseService.getProjects, SupabaseService.getTasks,
    SupabaseService.getTask, SupabaseService.getUserProfile. run_js.
  rewrite supabase_run.
  destruct (Supabase.getSupabase w) as [[r|e] w1] eqn:Hrun; cbn [fst];
    (split; [|try done]).
  - intros _.
    destruct (getSupabase_returns w r w1 Hrun) as (Hinit & Hc & _).
    destruct r as [c|]; cbn; [|by repeat split; eexists _, _].
    rewrite !(supabase_from_resolved c w1) by done.
    rewrite (supabase_auth_getUser_resolved c w1) by done.
    repeat split.
    + destruct (projects_many store _); by eexists _, _.
    + destruct (tasks_many store _); by eexists _, _.
    + destruct (tasks_one store _) as [row|error]; [by eexists _, _|].
      destruct (String.eqb (code error) "PGRST116"); by eexists _, _.
    + destruct (auth_getUser store) as [u|]; [|by eexists _, _].
      rewrite (supabase_from_resolved c w1) by done.
      destruct (users_one store _) as [row|error]; [by eexists _, _|].
      destruct (String.eqb (code error) "PGRST116"); by eexists _, _.
  - by intros (a & w' & [=]).
  - by intros e' [= <-].
Qed.

(** The later of two bindings of a key wins. *)
Lemma assoc_last (k : string) (v : JsValue) (fields : list (string * JsValue)) :
  assoc k (fields ++ [(k, v)]) = Some v.
Proof.
  induction fields as [|[k' v'] fields IH]; cbn.
  - by rewrite String.eqb_refl.
  - by rewrite IH.
Qed.

(** X11.  In configured mode a fault of the store on the projects listing
    is not thrown: [getProjects] returns the empty list and the last
    console line is the warning that carries the fault.  An answer with
    neither rows nor fault gives the empty list too. *)
Theorem getProjects_degrades (c : SupabaseClient) (w : World) :
  configured c w ->
  (forall error, projects_many store listProjects_query = PgError error ->
     fst (SupabaseService.getProjects store w) = Ret []
     /\ last (console (snd (SupabaseService.getProjects store w)))
        = Some (LWarn, [AStr "Error loading projects:"; AExn (StoreFault error)]))
  /\ (projects_many store listProjects_query = PgData None ->
      fst (SupabaseService.getProjects store w) = Ret []).
Proof.
  intros Hmode.
  destruct (supabase_configured c w Hmode) as (w1 & Hrun & Hinit & Hc & _).
  unfold SupabaseService.getProjects. run_js. rewrite Hrun. cbn.
  rewrite (supabase_from_resolved c w1) by done. fold listProjects_query.
  split.
  - intros error ->. cbn. split; [done|]. apply last_snoc.
  - by intros ->.
Qed.

(** X12.  In configured mode [createProject] needs an identity: without
    one it throws "No authenticated user" and sends nothing.  With one it
    sends a single insert whose row carries the identity's id as
    [user_id], returns the row the store gives and throws the fault the
    store reports. *)
Theorem createProject_owned_by_identity (c : SupabaseClient) (w : World)
  (projectData : SupabaseService.ProjectData) :
  configured c w ->
  (auth_getUser store = None ->
   fst (SupabaseService.createProject store projectData w)
   = Throw (JsError "No authenticated user")
   /\ queried (snd (SupabaseService.createProject store projectData w)) = queried w)
  /\ (forall u, auth_getUser store = Some u ->
        queried (snd (SupabaseService.createProject store projectData w))
        = (queried w ++ [createProject_query projectData (auth_id u)])%list
        /\ (exists row,
              verb (createProject_query projectData (auth_id u)) = Insert [row]
              /\ get_prop row "user_id" = inr (JStr (auth_id u)))
        /\ fst (SupabaseService.createProject store projectData w)
           = match projects_one store (createProject_query projectData (auth_id u)) with
             | PgData row => Ret row
             | PgError error => Throw (StoreFault error)
             end).
Proof.
  intros Hmode.
  destruct (supabase_configured c w Hmode) as (w1 & Hrun & Hinit & Hc & _ & _ & Hq).
  unfold SupabaseService.createProject. run_js. rewrite Hrun. cbn.
  rewrite (supabase_auth_getUser_resolved c w1) by done.
  split.
  - by intros ->.
  - intros u ->. rewrite (supabase_from_resolved c w1) by done.
    fold (createProject_query projectData (auth_id u)).
    split; [|split].
    + destruct (projects_one store _); cbn; by rewrite Hq.
    + eexists. split; [done|]. cbn. by rewrite assoc_last.
    + by destruct (projects_one store _).
Qed.

(** X13.  In configured mode [updateUserProfile] never touches the local
    preference cache.  Without an identity it throws "No authenticated
    user" and sends nothing; with one it sends a single update filtered on
    the identity's id, and a fault of the store is thrown. *)
Theorem updateUserProfile_remote (c : SupabaseClient) (w : World)
  (updates : SupabaseService.ProfileUpdates) :
  configured c w ->
  localStorage (snd (SupabaseService.updateUserProfile store updates w))
  = localStorage w
  /\ (auth_getUser store = None ->
      fst (SupabaseService.updateUserProfile store updates w)
      = Throw (JsError "No authenticated user")
      /\ queried (snd (SupabaseService.updateUserProfile store updates w))
         = queried w)
  /\ (forall u, auth_getUser store = Some u ->
        queried (snd (SupabaseService.updateUserProfile store updates w))
        = (queried w ++ [updateUserProfile_query updates (auth_id u)])%list
        /\ filters (updateUserProfile_query updates (auth_id u))
           = [("id", JStr (auth_id u))]
        /\ fst (SupabaseService.updateUserProfile store updates w)
           = match users_one store (updateUserProfile_query updates (auth_id u)) with
             | PgData row => Ret (SupabaseService.StoredProfile row)
             | PgError error => Throw (StoreFault error)
             end).
Proof.
  intros Hmode.
  destruct (supabase_configured c w Hmode) as (w1 & Hrun & Hinit & Hc & Hls & _ & Hq).
  unfold SupabaseService.updateUserProfile. run_js. rewrite Hrun. cbn.
  rewrite (supabase_auth_getUser_resolved c w1) by done.
  destruct (auth_getUser store) as [u|].
  - rewrite (supabase_from_resolved c w1) by done.
    fold (updateUserProfile_query updates (auth_id u)).
    split; [|split; [done|]].
    + by destruct (users_one store _).
    + intros ? [= <-]. split; [|split; [done|]].
      * destruct (users_one store _); cbn; by rewrite Hq.
      * by destruct (users_one store _).
  - by repeat split.
Qed.

(** X14.  In configured mode [getUserProfile] without an identity gives
    [null] and sends nothing.  With one it sends a single read filtered
    on the identity's id and gives the row, or [null] on any fault; a
    row-not-found fault is silent, any other fault is logged as a
    warning. *)
Theorem getUserProfile_remote (c : SupabaseClient) (w : World) :
  configured c w ->
  let w1 := snd (SupabaseService.supabase w) in
  (auth_getUser store = None ->
   SupabaseService.getUserProfile store w = (Ret None, w1))
  /\ (forall u, auth_getUser store = Some u ->
        queried (snd (SupabaseService.getUserProfile store w))
        = (queried w ++ [getUserProfile_query (auth_id u)])%list
        /\ fst (SupabaseService.getUserProfile store w)
           = match users_one store (getUserProfile_query (auth_id u)) with
             | PgData row => Ret (Some row)
             | PgError _ => Ret None
             end
        /\ (forall error,
              users_one store (getUserProfile_query (auth_id u)) = PgError error ->
              console (snd (SupabaseService.getUserProfile store w))
              = if String.eqb (code error) "PGRST116" then console w1
                else (console w1
                      ++ [(LWarn, [AStr "Error loading user profile:";
                                   AExn (StoreFault error)])])%list)).
Proof.
  intros Hmode w1. subst w1.
  destruct (supabase_configured c w Hmode) as (w1 & Hrun & Hinit & Hc & _ & _ & Hq).
  unfold SupabaseService.getUserProfile. run_js. rewrite Hrun. cbn.
  rewrite (supabase_auth_getUser_resolved c w1) by done.
  split.
  - by intros ->.
  - intros u ->. rewrite (supabase_from_resolved c w1) by done.
    fold (getUserProfile_query (auth_id u)).
    destruct (users_one store (getUserProfile_query (auth_id u))) as [row|error].
    + cbn. by rewrite Hq.
    + destruct (String.eqb (code error) "PGRST116") eqn:Hcode; cbn; rewrite Hq;
        (split; [done|]); (split; [done|]); intros ? [= <-]; by rewrite Hcode.
Qed.

(** X15.  In configured mode [updateProject] and [deleteProject] each
    send a single query on [projects] whose only filter is the given id,
    and a fault of the store is thrown to the caller; otherwise the
    updated row, or nothing for a delete, is returned. *)
Theorem project_writes_by_id (c : SupabaseClient) (w : World) (id : Z)
  (updates : list (string * JsValue)) :
  configured c w ->
  (queried (snd (SupabaseService.updateProject store id updates w))
   = (queried w ++ [updateProject_query id updates])%list
   /\ filters (updateProject_query id updates) = [("id", JNum id)]
   /\ fst (SupabaseService.updateProject store id updates w)
      = match projects_one store (updateProject_query id updates) with
        | PgData row => Ret row
        | PgError error => Throw (StoreFault error)
        end)
  /\ (queried (snd (SupabaseService.deleteProject store id w))
      = (queried w ++ [deleteProject_query id])%list
      /\ filters (deleteProject_query id) = [("id", JNum id)]
      /\ verb (deleteProject_query id) = Delete
      /\ fst (SupabaseService.deleteProject store id w)
         = match projects_many store (deleteProject_query id) with
           | PgData _ => Ret tt
           | PgError error => Throw (StoreFault error)
           end).
Proof.
  intros Hmode.
  destruct (supabase_configured c w Hmode) as (w1 & Hrun & Hinit & Hc & _ & _ & Hq).
  unfold SupabaseService.updateProject, SupabaseService.deleteProject. run_js.
  rewrite Hrun. cbn. rewrite !(supabase_from_resolved c w1) by done.
  fold (updateProject_query id updates) (deleteProject_query id).
  split.
  - destruct (projects_one store _); cbn; by rewrite Hq.
  - destruct (projects_many store _); cbn; by rewrite Hq.
Qed.

End OtherOperations.

(** ** Pages of the task listing *)

(** X16.  The range [getTasks] asks for with a positive limit and an
    offset that is not negative spans exactly [limit] rows.  Read as
    PostgREST reads a range, a page never holds more than [limit] rows,
    and a page followed by the page that starts [limit] rows later is the
    page of twice the size; with a negative limit the range asked for
    holds no row. *)
Theorem pages_tile {A : Type} (projectId : option Z) (offset limit : Z)
  (l : list A) :
  let asks o n :=
    range (listTasks_query projectId
             (Some (SupabaseService.mkTaskOptions (Some n) (Some o)))) in
  (0 <= offset -> 0 < limit ->
   asks offset limit = Some (offset, offset + limit - 1)
   /\ (List.length (Postgrest.in_range (asks offset limit) l) <= Z.to_nat limit)%nat
   /\ (Postgrest.in_range (asks offset limit) l
       ++ Postgrest.in_range (asks (offset + limit) limit) l)%list
      = Postgrest.in_range (asks offset (2 * limit)) l)
  /\ (limit < 0 -> Postgrest.in_range (asks offset limit) l = []).
Proof.
  intros asks.
  assert (Hasks : forall o n, n <> 0 -> asks o n = Some (o, o + n - 1)).
  { intros o n Hn. unfold asks.
    destruct (listTasks_query_parts projectId
                (Some (SupabaseService.mkTaskOptions (Some n) (Some o))))
      as (_ & -> & _).
    cbn. by destruct (Z.eqb_spec n 0). }
  split.
  - intros Ho Hl. rewrite !Hasks by lia. split; [done|]. cbn.
    rewrite (rows_between_take_drop offset limit) by lia.
    rewrite (rows_between_take_drop (offset + limit) limit) by lia.
    replace (offset + 2 * limit - 1) with (offset + (2 * limit) - 1) by lia.
    rewrite (rows_between_take_drop offset (2 * limit)) by lia.
    split.
    + rewrite length_take. lia.
    + replace (Z.to_nat (offset + limit)) with (Z.to_nat offset + Z.to_nat limit)%nat by lia.
      rewrite <- drop_drop, take_take_drop. f_equal. lia.
  - intros Hl. rewrite Hasks by lia. cbn. unfold Postgrest.rows_between.
    replace (Z.to_nat (offset + limit - 1 + 1) - Z.to_nat offset)%nat with 0%nat by lia.
    done.
Qed.

(** ** The forwarding endpoint when a body is not JSON *)

Section ForwardingFailures.

Variable load_env : gmap string string.
Variable net : Request -> FetchResult.

(** X17.  A request whose body is not JSON is answered with the 500
    report of a failed connection although nothing was sent to the
    backend; and when the backend answers with a body that is not JSON,
    the endpoint answers with that report too, whatever the backend's
    status was. *)
Theorem POST_reports_unparsable_bodies (request : ValidateToken.NextRequest)
  (w : World) :
  (forall e, ValidateToken.request_json request = inl e ->
     fst (ValidateToken.POST load_env net request w)
     = Ret (connection_error load_env (message_or e "Unknown error"))
     /\ fetched (snd (ValidateToken.POST load_env net request w)) = fetched w)
  /\ (forall body r e,
        ValidateToken.request_json request = inr body ->
        net (forwarded load_env body) = Resolved r ->
        json r = inl e ->
        fst (ValidateToken.POST load_env net request w)
        = Ret (connection_error load_env (message_or e "Unknown error"))
        /\ fetched (snd (ValidateToken.POST load_env net request w))
           = (fetched w ++ [forwarded load_env body])%list).
Proof.
  unfold ValidateToken.POST. run_js. split.
  - by intros e ->.
  - intros body r e ->. fold (forwarded load_env body). by intros -> ->.
Qed.

End ForwardingFailures.

(** ** The auth state provider *)

Section Provider.

Variable load_env : gmap string string.
Variable net : Request -> FetchResult.
Variable backend : Request -> AuthService.AuthAnswer.


(** X19.  Signing out is local and immediate: the provider's user becomes
    [null], the token is gone from memory and from the durable store,
    nothing is sent, and the loading flag is left as it was. *)
Theorem provider_signOut_clears (s : AuthContext.State) (w : World) :
  exists w',
    AuthContext.signOut s w
    = (Ret (AuthContext.mkState JNull (AuthContext.loading s)), w')
    /\ token w' = None /\ durable_token w' = None
    /\ fetched w' = fetched w.
Proof.
  destruct (clearToken_purges w) as (w' & Hrun & ? & ? & ?).
  exists w'. unfold AuthContext.signOut, AuthService.logout. run_js.
  by rewrite Hrun.
Qed.

(** X20.  The provider does not swallow a failed login or registration:
    the error is thrown to the caller and no new state is produced, the
    session being left as it was.  A granted one makes the answer's user
    the provider's user, keeps the loading flag, and holds the issued
    token. *)
Theorem provider_login_outcomes (email password : string)
  (fullName : option string) (s : AuthContext.State) (w : World) :
  ((forall data, ~ grants (backend (login_request load_env email password)) data) ->
   exists e w',
     AuthContext.login load_env backend email password s w = (Throw e, w')
     /\ token w' = token w /\ localStorage w' = localStorage w)
  /\ (forall data, grants (backend (login_request load_env email password)) data ->
        exists w',
          AuthContext.login load_env backend email password s w
          = (Ret (AuthContext.mkState (AuthService.data_user data)
                    (AuthContext.loading s)), w')
          /\ token w' = Some (AuthService.data_token data))
  /\ ((forall data,
         ~ grants (backend (register_request load_env email password fullName)) data) ->
      exists e w',
        AuthContext.register load_env backend email password fullName s w
        = (Throw e, w')
        /\ token w' = token w /\ localStorage w' = localStorage w)
  /\ (forall data,
        grants (backend (register_request load_env email password fullName)) data ->
        exists w',
          AuthContext.register load_env backend email password fullName s w
          = (Ret (AuthContext.mkState (AuthService.data_user data)
                    (AuthContext.loading s)), w')
          /\ token w' = Some (AuthService.data_token data)).
Proof.
  unfold grants, AuthContext.login, AuthContext.register. run_js.
  rewrite login_run, register_run. split; [|split; [|split]].
  - intros Hnot.
    destruct (backend (login_request load_env email password))
      as [e|[[e|error]|[e|data]]]; try by eexists _, _.
    + destruct (get_prop error "error"); by eexists _, _.
    + by destruct (Hnot data).
  - intros data ->.
    destruct (setToken_stores (AuthService.data_token data)
                (set_fetched (fetched w ++ [login_request load_env email password]) w))
      as (w' & -> & Htoken & _).
    by exists w'.
  - intros Hnot.
    destruct (backend (register_request load_env email password fullName))
      as [e|[[e|error]|[e|data]]]; try by eexists _, _.
    + destruct (get_prop error "error"); by eexists _, _.
    + by destruct (Hnot data).
  - intros data ->.
    destruct (setToken_stores (AuthService.data_token data)
                (set_fetched
                   (fetched w ++ [register_request load_env email password fullName]) w))
      as (w' & -> & Htoken & _).
    by exists w'.
Qed.

End Provider.

(** ** The sign-in page *)

Section SignInPage.

Variable login : string -> string -> M unit.
Variable register : string -> string -> option string -> M unit.


End SignInPage.

(** X22.  The guard and the sign-in page never send a visitor back and
    forth: for one auth state at most one of them navigates.  When the
    guard redirects to the sign-in page, that page shows its form and
    stays; when the sign-in page redirects home, the guard shows the
    content and stays. *)
Theorem guard_and_signin_never_loop {Node : Type} (children : Node)
  (supabase : option SupabaseClient) (auth : ProtectedRoute.AuthContextType) :
  (ProtectedRoute.effect supabase auth = [ProtectedRoute.push "/signin"] ->
   SignIn.effect auth = [] /\ SignIn.render auth = SignIn.FormView)
  /\ (SignIn.effect auth = [ProtectedRoute.push "/"] ->
      ProtectedRoute.effect supabase auth = []
      /\ ProtectedRoute.render children supabase auth
         = ProtectedRoute.Fragment children)
  /\ (ProtectedRoute.effect supabase auth = [] \/ SignIn.effect auth = []).
Proof.
  unfold ProtectedRoute.effect, ProtectedRoute.render, SignIn.effect, SignIn.render.
  destruct auth as [[u|] [|]], supabase as [cl|]; cbn;
    repeat split; try done; try (by left); by right.
Qed.

(** ** The further properties at work *)

(** A granted login in a fresh tab: the token "tok-9" is held in memory
    and in the durable store. *)
Lemma granted_token_written_through_witness :
  exists w',
    AuthService.login ∅ Sample.granting "a@x.com" "secret1" Sample.fresh
    = (Ret Sample.granted, w')
    /\ token w' = Some "tok-9"
    /\ durable_token w' = Some "tok-9".
Proof.
  destruct (proj1 (granted_token_written_through ∅ Sample.granting
                     "a@x.com" "secret1" None Sample.granted Sample.fresh)
              eq_refl)
    as (w' & Hrun & Htoken & Hstore & _).
  exists w'. split; [exact Hrun|]. split; [exact Htoken|].
  apply Hstore. eexists. reflexivity.
Defined.

(** A refused login in a signed-in tab: an error, and the held token
    stays. *)
Lemma ungranted_leaves_session_witness :
  exists e w',
    AuthService.login ∅ Sample.refusing "a@x.com" "wrong" Sample.signed_in
    = (Throw e, w')
    /\ token w' = Some "tok-1"
    /\ localStorage w' = localStorage Sample.signed_in.
Proof.
  apply (proj1 (ungranted_leaves_session ∅ Sample.refusing "a@x.com" "wrong"
                  None Sample.signed_in)).
  intros data Hgrant. discriminate Hgrant.
Defined.

(** The refusal carries the backend's message. *)
Lemma refusal_message_witness :
  fst (AuthService.login ∅ Sample.refusing "a@x.com" "wrong" Sample.fresh)
  = Throw (JsError "Invalid credentials").
Proof.
  destruct (proj1 (refusal_message ∅ Sample.refusing "a@x.com" "wrong" None
                     (JObj [("error", JStr "Invalid credentials")]) Sample.fresh)
              eq_refl)
    as [Hmessage _].
  apply Hmessage; [reflexivity | discriminate].
Defined.

(** Login, then the probe: two requests, the second with the new token. *)
Lemma login_then_probe_witness :
  fetched (snd (AuthService.getCurrentUser ∅ Sample.accepting
                  (snd (AuthService.login ∅ Sample.granting "a@x.com" "secret1"
                          Sample.fresh))))
  = [login_request ∅ "a@x.com" "secret1"; probe ∅ "tok-9"].
Proof.
  destruct (login_then_probe ∅ Sample.accepting Sample.granting
              "a@x.com" "secret1" Sample.granted Sample.fresh eq_refl)
    as [Hprobe _].
  apply Hprobe. discriminate.
Defined.


(** In a browser tab the stored token is there after a reload. *)
Lemma token_survives_reload_witness :
  token (snd (AuthService.constructor
                (snd (AuthService.setToken "tok-9" Sample.fresh))))
  = Some "tok-9".
Proof.
  apply (proj1 (token_survives_reload "tok-9" Sample.fresh)).
  eexists. reflexivity.
Defined.

Section DataLayerAtWork.

#[local] Existing Instance Sample.supabase_js.

(** Three calls in a configured deployment: both versions answer the
    client three times.  Two calls in a deployment whose URL lacks its
    scheme: both versions throw twice. *)
Lemma resolvers_agree_under_fixed_environment_witness :
  (fst (run Supabase.getSupabase (replicate 3 Resolve) Sample.online)
   = replicate 3 (Ret (Some Sample.client))
   /\ fst (run SupabaseLazy.getSupabase (replicate 3 Resolve) Sample.online)
      = replicate 3 (Ret (Some Sample.client)))
  /\ (fst (run Supabase.getSupabase (replicate 2 Resolve) Sample.misconfigured)
      = replicate 2 (Throw Sample.invalid_url)
      /\ fst (run SupabaseLazy.getSupabase (replicate 2 Resolve) Sample.misconfigured)
         = replicate 2 (Throw Sample.invalid_url)).
Proof.
  split.
  - exact (resolvers_agree_under_fixed_environment 3 Sample.online eq_refl eq_refl).
  - exact (resolvers_agree_under_fixed_environment 2 Sample.misconfigured
             eq_refl eq_refl).
Defined.

(** A fresh tab without credentials: a delete throws the local-mode
    error, the profile is [null]. *)
Lemma local_mode_other_operations_witness :
  SupabaseService.deleteProject Sample.faulty 5 Sample.fresh
  = (Throw StoreUnavailable, snd (SupabaseService.supabase Sample.fresh))
  /\ SupabaseService.getUserProfile Sample.faulty Sample.fresh
     = (Ret None, snd (SupabaseService.supabase Sample.fresh)).
Proof.
  destruct (local_mode_other_operations Sample.faulty Sample.fresh 5 [] eq_refl)
    as (_ & _ & Hprofile & _ & Hdelete & _).
  split; [exact Hdelete | exact Hprofile].
Defined.

(** A configured tab and a store at fault: the task listing returns.  A
    deployment whose URL lacks its scheme: the project listing throws the
    library's error. *)
Lemma degrading_reads_throw_with_the_resolver_only_witness :
  returns (SupabaseService.getTasks Sample.faulty (Some 7) None Sample.online)
  /\ fst (SupabaseService.getProjects Sample.faulty Sample.misconfigured)
     = Throw Sample.invalid_url.
Proof.
  split.
  - destruct (degrading_reads_throw_with_the_resolver_only Sample.faulty
                Sample.online 5 (Some 7) None) as [Hreturns _].
    apply Hreturns. eexists _, _. reflexivity.
  - destruct (degrading_reads_throw_with_the_resolver_only Sample.faulty
                Sample.misconfigured 5 (Some 7) None) as [_ Hthrows].
    exact (proj1 (Hthrows Sample.invalid_url
                    (f_equal fst misconfigured_throws))).
Defined.

(** A configured tab and a store at fault: the listing is empty. *)
Lemma getProjects_degrades_witness :
  fst (SupabaseService.getProjects Sample.faulty Sample.online) = Ret [].
Proof.
  destruct (getProjects_degrades Sample.faulty Sample.client Sample.online
              online_configured)
    as [Hfault _].
  exact (proj1 (Hfault Sample.fault eq_refl)).
Defined.

(** No identity: nothing is inserted.  An identity: the row sent is owned
    by it. *)
Lemma createProject_owned_by_identity_witness :
  fst (SupabaseService.createProject Sample.faulty Sample.new_project Sample.online)
  = Throw (JsError "No authenticated user")
  /\ queried (snd (SupabaseService.createProject Sample.faulty_signed_in
                     Sample.new_project Sample.online))
     = [createProject_query Sample.new_project "user-42"].
Proof.
  split.
  - destruct (createProject_owned_by_identity Sample.faulty Sample.client
                Sample.online Sample.new_project online_configured) as [Hnone _].
    exact (proj1 (Hnone eq_refl)).
  - destruct (createProject_owned_by_identity Sample.faulty_signed_in Sample.client
                Sample.online Sample.new_project online_configured) as [_ Hsome].
    exact (proj1 (Hsome (mkAuthUser "user-42") eq_refl)).
Defined.

(** A configured tab: preferences go to the store, not to the cache. *)
Lemma updateUserProfile_remote_witness :
  localStorage
    (snd (SupabaseService.updateUserProfile Sample.faulty_signed_in
            (SupabaseService.mkProfileUpdates None None None
               (JObj [("theme", JStr "dark")])) Sample.online))
  = localStorage Sample.online.
Proof.
  exact (proj1 (updateUserProfile_remote Sample.faulty_signed_in Sample.client
                  Sample.online
                  (SupabaseService.mkProfileUpdates None None None
                     (JObj [("theme", JStr "dark")])) online_configured)).
Defined.

(** A store at fault: the profile is [null]. *)
Lemma getUserProfile_remote_witness :
  fst (SupabaseService.getUserProfile Sample.faulty_signed_in Sample.online)
  = Ret None.
Proof.
  destruct (getUserProfile_remote Sample.faulty_signed_in Sample.client
              Sample.online online_configured) as [_ Hsome].
  exact (proj1 (proj2 (Hsome (mkAuthUser "user-42") eq_refl))).
Defined.

(** A delete of project 5 sends the filter on id 5 and throws the fault. *)
Lemma project_writes_by_id_witness :
  queried (snd (SupabaseService.deleteProject Sample.faulty 5 Sample.online))
  = [deleteProject_query 5]
  /\ fst (SupabaseService.deleteProject Sample.faulty 5 Sample.online)
     = Throw (StoreFault Sample.fault).
Proof.
  destruct (project_writes_by_id Sample.faulty Sample.client Sample.online 5 []
              online_configured) as (_ & Hq & _ & _ & Hrun).
  split; [exact Hq | exact Hrun].
Defined.

End DataLayerAtWork.

(** Five rows, pages of two: rows 1-2 then rows 3-4 are rows 1-4. *)
Lemma pages_tile_witness :
  (Postgrest.in_range
     (range (listTasks_query None
               (Some (SupabaseService.mkTaskOptions (Some 2) (Some 1)))))
     [10; 11; 12; 13; 14]
   ++ Postgrest.in_range
        (range (listTasks_query None
                  (Some (SupabaseService.mkTaskOptions (Some 2) (Some (1 + 2))))))
        [10; 11; 12; 13; 14])%list
  = Postgrest.in_range
      (range (listTasks_query None
                (Some (SupabaseService.mkTaskOptions (Some (2 * 2)) (Some 1)))))
      [10; 11; 12; 13; 14].
Proof.
  destruct (pages_tile None 1 2 [10; 11; 12; 13; 14]) as [Htile _].
  apply Htile; lia.
Defined.

(** A request that is not JSON: the 500 report, and nothing forwarded. *)
Lemma POST_reports_unparsable_bodies_witness :
  fst (ValidateToken.POST ∅ Sample.accepting
         (ValidateToken.mkNextRequest (inl (JsError "Unexpected end of JSON input")))
         Sample.fresh)
  = Ret (connection_error ∅ "Unexpected end of JSON input")
  /\ fetched (snd (ValidateToken.POST ∅ Sample.accepting
                     (ValidateToken.mkNextRequest
                        (inl (JsError "Unexpected end of JSON input")))
                     Sample.fresh))
     = [].
Proof.
  destruct (POST_reports_unparsable_bodies ∅ Sample.accepting
              (ValidateToken.mkNextRequest
                 (inl (JsError "Unexpected end of JSON input")))
              Sample.fresh) as [Hbody _].
  exact (Hbody (JsError "Unexpected end of JSON input") eq_refl).
Defined.


(** A granted login while the provider is still loading: the user is
    set, the flag stays. *)
Lemma provider_login_outcomes_witness :
  exists w',
    AuthContext.login ∅ Sample.granting "a@x.com" "secret1" AuthContext.initial
      Sample.fresh
    = (Ret (AuthContext.mkState (AuthService.data_user Sample.granted) true), w')
    /\ token w' = Some "tok-9".
Proof.
  exact (proj1 (proj2 (provider_login_outcomes ∅ Sample.granting "a@x.com"
                         "secret1" None AuthContext.initial Sample.fresh))
           Sample.granted eq_refl).
Defined.


(** An anonymous visitor of a configured deployment is sent to the
    sign-in page, which shows its form; a member on the sign-in page is
    sent home, where the guard shows the content. *)
Lemma guard_and_signin_never_loop_witness :
  (SignIn.effect Sample.visitor = [] /\ SignIn.render Sample.visitor = SignIn.FormView)
  /\ (ProtectedRoute.effect (Some Sample.client) Sample.member = []
      /\ ProtectedRoute.render tt (Some Sample.client) Sample.member
         = ProtectedRoute.Fragment tt).
Proof.
  destruct (guard_and_signin_never_loop tt (Some Sample.client) Sample.visitor)
    as [Hguard _].
  destruct (guard_and_signin_never_loop tt (Some Sample.client) Sample.member)
    as (_ & Hsignin & _).
  split; [exact (Hguard eq_refl) | exact (Hsignin eq_refl)].
Defined.
